(** * aitranslateapp: conversation identity and synchronisation

    A shallow embedding of the chat client's screens
    ([src/all-users.tsx], its later revision [src/unnamed/part_002], and the
    [ChatList] / [ChatScreen] components of [src/chatlist.tsx]) together with
    the properties the specification states about them.

    The screens are React function components.  Each one is modelled by
    - a record for the component's [useState] cells,
    - one function per handler or listener callback, taking the state (and
      what the Firestore SDK hands to the callback) and returning the new
      state with the list of effects the handler issued (document writes,
      navigation, local-storage writes, console output).
    Firestore itself is an explicit store value that is passed in and out;
    whether it answers a read or accepts a write is an input of the handler
    that awaits it. *)

From Stdlib Require Import List NArith ZArith Bool String Ascii Lia DecimalString.
Import ListNotations.

Set Implicit Arguments.

(** ** JavaScript strings

    A JavaScript string is a sequence of UTF-16 code units; ordering
    ([<], the default comparator of [Array.prototype.sort]) and [trim] are
    both defined on code units. *)

Definition JSString := list N.

Definition js (s : string) : JSString :=
  List.map N_of_ascii (list_ascii_of_string s).

Definition str_compare (x y : JSString) : comparison :=
  list_compare N.compare x y.

Definition str_ltb (x y : JSString) : bool :=
  match str_compare x y with Lt => true | _ => false end.

Fixpoint str_eqb (x y : JSString) : bool :=
  match x, y with
  | [], [] => true
  | a :: x', b :: y' => N.eqb a b && str_eqb x' y'
  | _, _ => false
  end.

(** The empty string, [''] in the source. *)
Definition empty : JSString := [].

(** [Array.prototype.join(sep)] on an array of strings. *)
Fixpoint join (sep : JSString) (xs : list JSString) : JSString :=
  match xs with
  | [] => []
  | [x] => x
  | x :: rest => x ++ sep ++ join sep rest
  end.

(** [Array.prototype.sort()] without a comparator, on an array of strings:
    a stable sort by code-unit order.  [sort_insert x l] puts [x] in front
    of the first element that is not smaller than it. *)
Fixpoint sort_insert (x : JSString) (l : list JSString) : list JSString :=
  match l with
  | [] => [x]
  | y :: l' => if str_ltb y x then y :: sort_insert x l' else x :: y :: l'
  end.

Fixpoint sort (l : list JSString) : list JSString :=
  match l with
  | [] => []
  | x :: l' => sort_insert x (sort l')
  end.

(** Code units that [String.prototype.trim] strips: ECMAScript WhiteSpace
    (TAB, VT, FF, SP, NBSP, ZWNBSP and the Unicode space separators) and
    LineTerminator (LF, CR, LS, PS). *)
Definition is_white_space (c : N) : bool :=
  ((9 <=? c) && (c <=? 13) || (c =? 32) || (c =? 160) || (c =? 5760)
   || (8192 <=? c) && (c <=? 8202) || (c =? 8232) || (c =? 8233)
   || (c =? 8239) || (c =? 8287) || (c =? 12288) || (c =? 65279))%N.

Fixpoint trim_start (s : JSString) : JSString :=
  match s with
  | [] => []
  | c :: s' => if is_white_space c then trim_start s' else s
  end.

Definition trim (s : JSString) : JSString :=
  rev (trim_start (rev (trim_start s))).

(** ** Firestore values and documents *)

(** The field values the screens read or write.  [VUndefined] is what
    reading an absent field yields; [VServerTimestamp] is the
    [serverTimestamp()] sentinel of a write. *)
#[local] Unset Elimination Schemes.
Inductive Value : Type :=
| VUndefined
| VNull
| VBool (b : bool)
| VNumber (z : Z)
| VString (s : JSString)
| VTimestamp (millis : Z)
| VServerTimestamp
| VArray (elems : list Value).
#[local] Set Elimination Schemes.

(** JavaScript truthiness ([!v], [v || d], [if (v)]).  A [VNumber] is an
    integer-valued number. *)
Definition truthy (v : Value) : bool :=
  match v with
  | VUndefined | VNull => false
  | VBool b => b
  | VNumber z => negb (Z.eqb z 0)
  | VString s => match s with [] => false | _ => true end
  | VTimestamp _ | VServerTimestamp | VArray _ => true
  end.

(** [v || d] *)
Definition or_else (v d : Value) : Value := if truthy v then v else d.

(** Equality of field values, as the equality filters of a query and
    [Array.prototype.includes] on strings decide it. *)
Fixpoint value_eqb (v w : Value) : bool :=
  match v, w with
  | VUndefined, VUndefined => true
  | VNull, VNull => true
  | VBool a, VBool b => Bool.eqb a b
  | VNumber a, VNumber b => Z.eqb a b
  | VString a, VString b => str_eqb a b
  | VTimestamp a, VTimestamp b => Z.eqb a b
  | VServerTimestamp, VServerTimestamp => true
  | VArray xs, VArray ys =>
      (fix all2 (xs ys : list Value) : bool :=
         match xs, ys with
         | [], [] => true
         | x :: xs', y :: ys' => value_eqb x y && all2 xs' ys'
         | _, _ => false
         end) xs ys
  | _, _ => false
  end.

(** Decimal digits of an integer. *)
Definition decimal (z : Z) : JSString := js (NilZero.string_of_int (Z.to_int z)).

(** [`${v}`]: the string a template literal makes of a value (integers
    below 10^21 in plain decimal; a Timestamp through its [toString()];
    an array through [join(',')], where [null] and [undefined] elements
    leave nothing). *)
Fixpoint toStr (v : Value) : JSString :=
  match v with
  | VUndefined => js "undefined"
  | VNull => js "null"
  | VBool true => js "true"
  | VBool false => js "false"
  | VNumber z => decimal z
  | VString s => s
  | VTimestamp millis =>
      js "Timestamp(seconds=" ++ decimal (millis / 1000)
      ++ js ", nanoseconds=" ++ decimal ((millis mod 1000) * 1000000) ++ js ")"
  | VServerTimestamp => js "[object Object]"
  | VArray es =>
      (fix joined (es : list Value) : JSString :=
         match es with
         | [] => []
         | e :: rest =>
             let printed :=
               match e with VUndefined | VNull => [] | _ => toStr e end in
             match rest with
             | [] => printed
             | _ => printed ++ js "," ++ joined rest
             end
         end) es
  end.

(** An array of strings as a field value. *)
Definition string_array (l : list JSString) : Value := VArray (List.map VString l).

(** A document's data: field name to value, most recent binding first. *)
Definition DocumentData := list (JSString * Value).

Fixpoint field (name : JSString) (d : DocumentData) : Value :=
  match d with
  | [] => VUndefined
  | (k, v) :: d' => if str_eqb k name then v else field name d'
  end.

Module Doc.
Record t : Type := mk {
  id : JSString;
  data : DocumentData
}.
End Doc.
Definition QueryDocumentSnapshot : Type := Doc.t.

(** What a listener or [getDocs] receives: the matching documents in the
    order of the query. *)
Definition QuerySnapshot := list QueryDocumentSnapshot.

(** ** The Firestore store

    The database maps a collection path to the documents of the collection,
    kept in the order in which a query without [orderBy] lists them. *)
Definition Firestore := list (JSString * list QueryDocumentSnapshot).

Fixpoint collection (db : Firestore) (path : JSString) : list QueryDocumentSnapshot :=
  match db with
  | [] => []
  | (p, docs) :: db' => if str_eqb p path then docs else collection db' path
  end.

Fixpoint set_collection (path : JSString) (docs : list QueryDocumentSnapshot)
    (db : Firestore) : Firestore :=
  match db with
  | [] => [(path, docs)]
  | (p, ds) :: db' =>
      if str_eqb p path then (p, docs) :: db'
      else (p, ds) :: set_collection path docs db'
  end.

Inductive WhereOp : Type := OpEq | OpArrayContains.
Inductive Direction : Type := Asc | Desc.

(** The arguments of [query(ref, ...)]. *)
Inductive QueryConstraint : Type :=
| Where (fieldPath : JSString) (op : WhereOp) (v : Value)
| OrderBy (fieldPath : JSString) (dir : Direction)
| Limit (n : nat).

Record Query : Type := query {
  q_path : JSString;
  q_constraints : list QueryConstraint
}.

Definition matches (c : QueryConstraint) (d : QueryDocumentSnapshot) : bool :=
  match c with
  | Where f OpEq v => value_eqb (field f (Doc.data d)) v
  | Where f OpArrayContains v =>
      match field f (Doc.data d) with
      | VArray es => existsb (value_eqb v) es
      | _ => false
      end
  | _ => true
  end.

Definition is_orderBy (c : QueryConstraint) : bool :=
  match c with OrderBy _ _ => true | _ => false end.

Fixpoint limit_of (cs : list QueryConstraint) : option nat :=
  match cs with
  | [] => None
  | Limit n :: _ => Some n
  | _ :: cs' => limit_of cs'
  end.

(** A one-shot read, [await getDocs(q)].  [answered] tells whether the
    store answers; a read it does not answer rejects ([None]) and the
    caller's [catch] runs.  An answered read gives the documents that pass
    every filter, cut to the limit.  The screens never pass an ordered
    query to [getDocs]; ordering is the server's business and a read that
    asks for it is not answered here. *)
Definition getDocs (answered : bool) (db : Firestore) (q : Query)
    : option QuerySnapshot :=
  if negb answered then None
  else if existsb is_orderBy (q_constraints q) then None
  else
    let found :=
      filter (fun d => forallb (fun c => matches c d) (q_constraints q))
             (collection db (q_path q)) in
    Some (match limit_of (q_constraints q) with
          | Some n => firstn n found
          | None => found
          end).

(** What the server decides about an [addDoc]: whether it accepts the
    write, and for an accepted one the generated document id, where the
    new document falls in the collection's listing order, and the time
    that replaces [serverTimestamp()]. *)
Record Server : Type := mkServer {
  accepts : bool;
  autoId : JSString;
  position : nat;
  now : Z
}.

Definition resolve (t : Z) (v : Value) : Value :=
  match v with VServerTimestamp => VTimestamp t | _ => v end.

Definition insert_at {A : Type} (n : nat) (x : A) (l : list A) : list A :=
  firstn n l ++ x :: skipn n l.

(** The document an accepted write stores. *)
Definition stored (srv : Server) (fields : DocumentData) : QueryDocumentSnapshot :=
  Doc.mk (autoId srv)
    (List.map (fun kv => (fst kv, resolve (now srv) (snd kv))) fields).

(** [await addDoc(collection(db, path), fields)]: the new store and the new
    document's id, or [None] when the write is rejected (the store is as
    before and the caller's [catch] runs). *)
Definition addDoc (srv : Server) (path : JSString) (fields : DocumentData)
    (db : Firestore) : option (Firestore * JSString) :=
  if accepts srv then
    Some (set_collection path
            (insert_at (position srv) (stored srv fields) (collection db path)) db,
          autoId srv)
  else None.

(** While a write is awaited the SDK shows it to the listeners of the
    collection as a local document, whose [serverTimestamp()] fields read
    [null] until the server has answered. *)
Definition unconfirmed (v : Value) : Value :=
  match v with VServerTimestamp => VNull | _ => v end.

Definition local (srv : Server) (fields : DocumentData) : QueryDocumentSnapshot :=
  Doc.mk (autoId srv) (List.map (fun kv => (fst kv, unconfirmed (snd kv))) fields).

(** ** Shared types of the screens *)

(** firebase/auth [User], the part the screens read. *)
Module Auth.
Record User : Type := mkUser {
  uid : JSString;
  displayName : option JSString   (* string | null *)
}.
End Auth.

(** [type Chat] of chatlist.tsx. *)
Module Chat.
Record t : Type := mk {
  id : JSString;
  chatName : Value;
  lastMessageText : Value;
  lastMessageTimestamp : Value
}.
End Chat.

(** What a handler asks of the world around the component. *)
Inductive Effect : Type :=
| RouterPush (url : JSString)
| RouterReplace (url : JSString)
| ConsoleLog (msg : JSString)
| ConsoleWarn (msg : JSString)
| ConsoleError (msg : JSString)
| OnSnapshot (q : Query)                      (* a listener is attached *)
| SetItem (key : JSString) (chats : list Chat.t)
    (* AsyncStorage.setItem(key, JSON.stringify(chats)) *)
| ScrollToEnd.

(** How the promise of an [async] handler settles. *)
Inductive Settled : Type :=
| Fulfilled
| Rejected (reason : JSString).

(** What one run of an [async] handler leaves behind. *)
Record Result (S : Type) : Type := mkResult {
  res_db : Firestore;
  res_state : S;
  res_effects : list Effect;
  res_promise : Settled
}.
Arguments mkResult {S}.

(** The urls pushed on the router by a handler. *)
Definition pushed (es : list Effect) : list JSString :=
  flat_map (fun e => match e with RouterPush u => [u] | _ => [] end) es.

(** [`/chat?chatId=${chatId}`] *)
Definition chat_url (chatId : JSString) : JSString := js "/chat?chatId=" ++ chatId.

(** [`${x}`] for [x : string | null]. *)
Definition template (x : option JSString) : JSString :=
  match x with Some s => s | None => js "null" end.

(** [x || d] for [x : string | null]. *)
Definition or_default (x : option JSString) (d : JSString) : JSString :=
  match x with
  | Some (c :: s) => c :: s
  | _ => d
  end.

(** Collection paths under [/artifacts/${appId}/public/data]. *)
Definition usersPath (appId : JSString) : JSString :=
  js "/artifacts/" ++ appId ++ js "/public/data/users".

Definition chatsPath (appId : JSString) : JSString :=
  js "/artifacts/" ++ appId ++ js "/public/data/chats".

Definition messagesPath (appId chatId : JSString) : JSString :=
  js "/artifacts/" ++ appId ++ js "/public/data/chats/" ++ chatId ++ js "/messages".

(** [type AppUser] of the user directory.  [displayName] and [photoURL]
    hold what the users document has in those fields. *)
Module AppUser.
Record t : Type := mk {
  uid : JSString;
  displayName : Value;
  photoURL : Value
}.
End AppUser.

(** [currentUser?.uid] *)
Definition uid_of (currentUser : option Auth.User) : Value :=
  match currentUser with
  | Some u => VString (Auth.uid u)
  | None => VUndefined
  end.

(** ** src/all-users.tsx *)
Module AllUsers.

Record State : Type := mkState {
  currentUser : option Auth.User;
  users : list AppUser.t;
  loading : bool
}.

(** The [useState] initial values: what the first render sees. *)
Definition initialState : State :=
  {| currentUser := None; users := []; loading := true |}.

Definition setCurrentUser (u : Auth.User) (st : State) : State :=
  {| currentUser := Some u; users := users st; loading := loading st |}.
Definition setUsers (l : list AppUser.t) (st : State) : State :=
  {| currentUser := currentUser st; users := l; loading := loading st |}.
Definition setLoading (b : bool) (st : State) : State :=
  {| currentUser := currentUser st; users := users st; loading := b |}.

(** The body of [querySnapshot.forEach] in [fetchUsers]: [usersList]
    after visiting [doc].  [currentUser] is the variable of the enclosing
    render that the listener closed over. *)
Definition visit (currentUser : option Auth.User)
    (usersList : list AppUser.t) (doc : QueryDocumentSnapshot) : list AppUser.t :=
  let userData := Doc.data doc in
  if negb (value_eqb (VString (Doc.id doc)) (uid_of currentUser)) then
    usersList ++ [AppUser.mk (Doc.id doc)
                    (field (js "displayName") userData)
                    (field (js "photoURL") userData)]
  else usersList.

(** The success callback that [fetchUsers] hands to [onSnapshot]. *)
Definition onUsersSnapshot (currentUser : option Auth.User)
    (querySnapshot : QuerySnapshot) (st : State) : State :=
  let usersList := fold_left (visit currentUser) querySnapshot [] in
  setLoading false (setUsers usersList st).

(** The error callback. *)
Definition onUsersError (st : State) : State * list Effect :=
  (setLoading false st, [ConsoleError (js "Error fetching users:")]).

(** A mounted component: the state cells and, once [fetchUsers] ran, the
    [currentUser] its snapshot listener closed over. *)
Record Component : Type := mkComponent {
  state : State;
  listener : option (option Auth.User)
}.

Definition mount : Component := {| state := initialState; listener := None |}.

Section WithApp.
Variable appId : JSString.

(** [fetchUsers()], called from a closure of the render [render]. *)
Definition fetchUsers (render : State) (c : Component) : Component * list Effect :=
  ({| state := setLoading true (state c);
      listener := Some (currentUser render) |},
   [OnSnapshot (query (usersPath appId) [])]).

(** The callback given to [onAuthStateChanged] by the effect of the
    render [render]. *)
Definition onAuthStateChanged (render : State) (user : option Auth.User)
    (c : Component) : Component * list Effect :=
  match user with
  | Some u =>
      fetchUsers render
        {| state := setCurrentUser u (state c); listener := listener c |}
  | None => (c, [RouterReplace (js "/")])
  end.

(** The auth effect has an empty dependency list: it runs once, after
    the first render, and its callback is that render's closure. *)
Definition authCallback : option Auth.User -> Component -> Component * list Effect :=
  onAuthStateChanged initialState.

(** A users snapshot reaches the component through the attached
    listener. *)
Definition deliver (querySnapshot : QuerySnapshot) (c : Component) : Component :=
  match listener c with
  | Some captured =>
      {| state := onUsersSnapshot captured querySnapshot (state c);
         listener := listener c |}
  | None => c
  end.

(** [const members = [currentUser.uid, otherUser.uid].sort()] *)
Definition members (currentUser : Auth.User) (otherUser : AppUser.t) : list JSString :=
  sort [Auth.uid currentUser; AppUser.uid otherUser].

(** [const chatId = members.join('_')] *)
Definition chatId (currentUser : Auth.User) (otherUser : AppUser.t) : JSString :=
  join (js "_") (members currentUser otherUser).

(** The lookup query of [handleCreateChat]. *)
Definition lookup (currentUser : Auth.User) (otherUser : AppUser.t) : Query :=
  query (chatsPath appId)
    [Where (js "members") OpEq (string_array (members currentUser otherUser));
     Limit 1].

(** The [catch] block of [handleCreateChat], entered with store [db]. *)
Definition caught (st : State) (db : Firestore) : Result State :=
  mkResult db st [ConsoleError (js "Error creating chat:")] Fulfilled.

(** [handleCreateChat(otherUser)], run in a render whose state is [st],
    against the store [db].  [answered] tells whether the store answers
    the lookup, [srv] what the server decides about the write.  The body
    sits in [try]/[catch], and the [catch] only logs: the promise is
    fulfilled on every path. *)
Definition handleCreateChat (st : State) (otherUser : AppUser.t)
    (answered : bool) (srv : Server) (db : Firestore) : Result State :=
  match currentUser st with
  | None => mkResult db st [] Fulfilled
  | Some cu =>
      match getDocs answered db (lookup cu otherUser) with
      | None => caught st db
      | Some [] =>
          let chatName :=
            template (Auth.displayName cu) ++ js " & "
            ++ toStr (AppUser.displayName otherUser) in
          match
            addDoc srv (chatsPath appId)
              [(js "members", string_array (members cu otherUser));
               (js "chatName", VString chatName);
               (js "lastMessageText", VString (js "New chat created!"));
               (js "lastMessageTimestamp", VServerTimestamp)] db
          with
          | None => caught st db
          | Some (db', newId) =>
              mkResult db' st [RouterPush (chat_url newId)] Fulfilled
          end
      | Some (doc0 :: _) =>
          mkResult db st [RouterPush (chat_url (Doc.id doc0))] Fulfilled
      end
  end.
End WithApp.
End AllUsers.

(** ** src/unnamed/part_002: another revision of the user directory *)
Module AllUsers2.

Record State : Type := mkState {
  currentUser : option Auth.User;
  users : list AppUser.t;
  loading : bool
}.

Definition initialState : State :=
  {| currentUser := None; users := []; loading := true |}.

Definition setCurrentUser (u : Auth.User) (st : State) : State :=
  {| currentUser := Some u; users := users st; loading := loading st |}.
Definition setUsers (l : list AppUser.t) (st : State) : State :=
  {| currentUser := currentUser st; users := l; loading := loading st |}.
Definition setLoading (b : bool) (st : State) : State :=
  {| currentUser := currentUser st; users := users st; loading := b |}.

(** The body of [querySnapshot.forEach] in [fetchUsers(user)]. *)
Definition visit (user : Auth.User)
    (usersList : list AppUser.t) (doc : QueryDocumentSnapshot) : list AppUser.t :=
  if negb (str_eqb (Doc.id doc) (Auth.uid user)) then
    let userData := Doc.data doc in
    usersList ++ [AppUser.mk (Doc.id doc)
                    (field (js "displayName") userData)
                    (field (js "photoURL") userData)]
  else usersList.

Definition onUsersSnapshot (user : Auth.User)
    (querySnapshot : QuerySnapshot) (st : State) : State :=
  let usersList := fold_left (visit user) querySnapshot [] in
  setLoading false (setUsers usersList st).

Definition onUsersError (st : State) : State * list Effect :=
  (setLoading false st, [ConsoleError (js "Error fetching users:")]).

(** The state cells and, once [fetchUsers] ran, the [user] argument its
    snapshot listener closed over. *)
Record Component : Type := mkComponent {
  state : State;
  listener : option Auth.User
}.

Definition mount : Component := {| state := initialState; listener := None |}.

Section WithApp.
Variable appId : JSString.

(** [fetchUsers(user)] *)
Definition fetchUsers (user : Auth.User) (c : Component) : Component * list Effect :=
  ({| state := setLoading true (state c); listener := Some user |},
   [OnSnapshot (query (usersPath appId) [])]).

Definition authCallback (user : option Auth.User) (c : Component)
    : Component * list Effect :=
  match user with
  | Some u =>
      fetchUsers u {| state := setCurrentUser u (state c); listener := listener c |}
  | None => (c, [RouterReplace (js "/")])
  end.

Definition deliver (querySnapshot : QuerySnapshot) (c : Component) : Component :=
  match listener c with
  | Some user =>
      {| state := onUsersSnapshot user querySnapshot (state c);
         listener := listener c |}
  | None => c
  end.

(** The lookup query: every chat the current user is a member of. *)
Definition lookup (currentUser : Auth.User) : Query :=
  query (chatsPath appId)
    [Where (js "members") OpArrayContains (VString (Auth.uid currentUser))].

(** [Array.isArray(data.members) ? data.members : []] *)
Definition members_of (d : DocumentData) : list Value :=
  match field (js "members") d with VArray es => es | _ => [] end.

(** The test inside [querySnapshot.forEach]: the chat has exactly these
    two members. *)
Definition is_chat_of (currentUser : Auth.User) (otherUser : AppUser.t)
    (doc : QueryDocumentSnapshot) : bool :=
  let members := members_of (Doc.data doc) in
  Nat.eqb (List.length members) 2
  && existsb (value_eqb (VString (Auth.uid currentUser))) members
  && existsb (value_eqb (VString (AppUser.uid otherUser))) members.

(** [existingChatId] after the loop: the id of the last matching
    document, or [null]. *)
Definition existing (currentUser : Auth.User) (otherUser : AppUser.t)
    (querySnapshot : QuerySnapshot) : option JSString :=
  fold_left
    (fun existingChatId doc =>
       if is_chat_of currentUser otherUser doc then Some (Doc.id doc)
       else existingChatId)
    querySnapshot None.

(** [if (existingChatId)]: neither [null] nor the empty string. *)
Definition nonempty_id (x : option JSString) : option JSString :=
  match x with
  | Some (c :: s) => Some (c :: s)
  | _ => None
  end.

Definition members (currentUser : Auth.User) (otherUser : AppUser.t) : list JSString :=
  sort [Auth.uid currentUser; AppUser.uid otherUser].

(** The [catch] block of [handleCreateChat], entered with store [db]. *)
Definition caught (st : State) (db : Firestore) : Result State :=
  mkResult db st [ConsoleError (js "Error creating chat:")] Fulfilled.

(** [handleCreateChat(otherUser)].  [answered] tells whether the store
    answers the lookup; [srv] and [srvMsg] are the server's decisions about
    the chat document and about its first message.  When the chat is
    stored and the message is rejected, the [catch] is entered with the
    chat in the store. *)
Definition handleCreateChat (st : State) (otherUser : AppUser.t)
    (answered : bool) (srv srvMsg : Server) (db : Firestore) : Result State :=
  match currentUser st with
  | None => mkResult db st [] Fulfilled
  | Some cu =>
      match getDocs answered db (lookup cu) with
      | None => caught st db
      | Some querySnapshot =>
          match nonempty_id (existing cu otherUser querySnapshot) with
          | Some existingChatId =>
              mkResult db st
                [ConsoleLog (js "Existing chat found:");
                 RouterPush (chat_url existingChatId)] Fulfilled
          | None =>
              let chatName :=
                or_default (Auth.displayName cu) (js "You") ++ js " & "
                ++ toStr (or_else (AppUser.displayName otherUser)
                                  (VString (js "User"))) in
              let creating := ConsoleLog (js "Creating new chat with members:") in
              match
                addDoc srv (chatsPath appId)
                  [(js "members", string_array (members cu otherUser));
                   (js "chatName", VString chatName);
                   (js "lastMessageText", VString empty);
                   (js "lastMessageTimestamp", VServerTimestamp)] db
              with
              | None =>
                  mkResult db st
                    [creating; ConsoleError (js "Error creating chat:")] Fulfilled
              | Some (db1, newId) =>
                  match
                    addDoc srvMsg (messagesPath appId newId)
                      [(js "text", VString (js "Chat started"));
                       (js "senderId", VString (Auth.uid cu));
                       (js "timestamp", VServerTimestamp)] db1
                  with
                  | None =>
                      mkResult db1 st
                        [creating; ConsoleError (js "Error creating chat:")] Fulfilled
                  | Some (db2, _) =>
                      mkResult db2 st [creating; RouterPush (chat_url newId)] Fulfilled
                  end
              end
          end
      end
  end.
End WithApp.
End AllUsers2.

(** ** src/chatlist.tsx: the conversation list *)
Module ChatList.

Definition STORAGE_KEY : JSString := js "@cached_chats".

Record State : Type := mkState {
  currentUser : option Auth.User;
  authLoading : bool;
  chats : list Chat.t;
  loading : bool;
  refreshing : bool
}.

Definition initialState : State :=
  {| currentUser := None; authLoading := true; chats := [];
     loading := true; refreshing := false |}.

Definition setCurrentUser (u : Auth.User) (st : State) : State :=
  {| currentUser := Some u; authLoading := authLoading st; chats := chats st;
     loading := loading st; refreshing := refreshing st |}.
Definition setAuthLoading (b : bool) (st : State) : State :=
  {| currentUser := currentUser st; authLoading := b; chats := chats st;
     loading := loading st; refreshing := refreshing st |}.
Definition setChats (l : list Chat.t) (st : State) : State :=
  {| currentUser := currentUser st; authLoading := authLoading st; chats := l;
     loading := loading st; refreshing := refreshing st |}.
Definition setLoading (b : bool) (st : State) : State :=
  {| currentUser := currentUser st; authLoading := authLoading st; chats := chats st;
     loading := b; refreshing := refreshing st |}.
Definition setRefreshing (b : bool) (st : State) : State :=
  {| currentUser := currentUser st; authLoading := authLoading st; chats := chats st;
     loading := loading st; refreshing := b |}.

Definition onAuthStateChanged (user : option Auth.User) (st : State)
    : State * list Effect :=
  match user with
  | Some u => (setAuthLoading false (setCurrentUser u st), [])
  | None => (setAuthLoading false st, [RouterReplace (js "/")])
  end.

(** [openChat(chatId)] *)
Definition openChat (chatId : JSString) : list Effect :=
  [RouterPush (chat_url chatId)].

(** The body of [querySnapshot.forEach]: [chatList] and the console
    output after visiting [docSnap]. *)
Definition visit (acc : list Chat.t * list Effect) (docSnap : QueryDocumentSnapshot)
    : list Chat.t * list Effect :=
  let data := Doc.data docSnap in
  if negb (truthy (field (js "lastMessageTimestamp") data)) then
    (fst acc,
     snd acc ++ [ConsoleWarn (js "Chat doc " ++ Doc.id docSnap
                              ++ js " missing lastMessageTimestamp, skipping")])
  else
    (fst acc ++ [Chat.mk (Doc.id docSnap)
                   (or_else (field (js "chatName") data) (VString (js "Unnamed Chat")))
                   (or_else (field (js "lastMessageText") data) (VString empty))
                   (field (js "lastMessageTimestamp") data)],
     snd acc).

(** The success callback of the chats listener.  [cacheFails] tells
    whether [AsyncStorage.setItem] throws. *)
Definition onChatsSnapshot (cacheFails : bool) (querySnapshot : QuerySnapshot)
    (st : State) : State * list Effect :=
  let '(chatList, warnings) := fold_left visit querySnapshot ([], []) in
  (setRefreshing false (setLoading false (setChats chatList st)),
   warnings ++ [SetItem STORAGE_KEY chatList]
   ++ (if cacheFails then [ConsoleWarn (js "Failed to cache chats:")] else [])).

(** The error callback of the chats listener. *)
Definition onChatsError (st : State) : State * list Effect :=
  (setRefreshing false (setLoading false st),
   [ConsoleError (js "Error fetching chat list:")]).

Section WithApp.
Variable appId : JSString.

(** The effect that attaches the chats listener. *)
Definition subscribe (st : State) : State * list Effect :=
  if authLoading st then (st, [])
  else
    match currentUser st with
    | None => (st, [])
    | Some cu =>
        (setLoading true st,
         [OnSnapshot
            (query (chatsPath appId)
               [Where (js "members") OpArrayContains (VString (Auth.uid cu));
                OrderBy (js "lastMessageTimestamp") Desc])])
    end.
End WithApp.

(** What the chats listener is called with. *)
Inductive Event : Type :=
| Snapshot (cacheFails : bool) (querySnapshot : QuerySnapshot)
| SnapshotError.

Definition step (c : State * list Effect) (e : Event) : State * list Effect :=
  let '(st', out) :=
    match e with
    | Snapshot cacheFails qs => onChatsSnapshot cacheFails qs (fst c)
    | SnapshotError => onChatsError (fst c)
    end in
  (st', snd c ++ out).

Definition run (events : list Event) (st : State) : State * list Effect :=
  fold_left step events (st, []).

End ChatList.

(** ** src/chatlist.tsx: the message thread *)
Module Message.
Inductive Sender : Type := me | other.

Record t : Type := mk {
  id : JSString;
  text : Value;
  userName : Value;
  sender : Sender;
  time : JSString;
  avatar : JSString;
  userId : Value;
  timestamp : option Z          (* a Date, or undefined *)
}.
End Message.

Module ChatScreen.

Record State : Type := mkState {
  messages : list Message.t;
  input : JSString;
  currentUser : option Auth.User;
  loading : bool
}.

Definition initialState : State :=
  {| messages := []; input := []; currentUser := None; loading := true |}.

Definition setMessages (l : list Message.t) (st : State) : State :=
  {| messages := l; input := input st; currentUser := currentUser st;
     loading := loading st |}.
Definition setInput (s : JSString) (st : State) : State :=
  {| messages := messages st; input := s; currentUser := currentUser st;
     loading := loading st |}.
Definition setCurrentUser (u : Auth.User) (st : State) : State :=
  {| messages := messages st; input := input st; currentUser := Some u;
     loading := loading st |}.
Definition setLoading (b : bool) (st : State) : State :=
  {| messages := messages st; input := input st; currentUser := currentUser st;
     loading := b |}.

(** [data.timestamp?.toDate()]: [undefined] on a nullish field, the date
    of a Timestamp; on any other value [toDate] is not a function and
    the call throws ([None]). *)
Definition toDate (v : Value) : option (option Z) :=
  match v with
  | VUndefined | VNull => Some None
  | VTimestamp millis => Some (Some millis)
  | _ => None
  end.

(** The chat room every [ChatScreen] reads and writes. *)
Definition room : JSString := js "general_chat".

Section WithApp.
Variable appId : JSString.
(** [Date.prototype.toLocaleTimeString], which depends on the locale. *)
Variable toLocaleTimeString : Z -> JSString.

(** The effect that attaches the messages listener. *)
Definition subscribe (st : State) : State * list Effect :=
  match currentUser st with
  | None => (st, [])
  | Some _ =>
      (setLoading true st,
       [OnSnapshot (query (messagesPath appId room)
                      [OrderBy (js "timestamp") Asc])])
  end.

(** The body of [querySnapshot.forEach]: [msgs] after visiting [doc],
    or [None] once [toDate] has thrown. *)
Definition visit (cu : Auth.User) (msgs : option (list Message.t))
    (doc : QueryDocumentSnapshot) : option (list Message.t) :=
  match msgs with
  | None => None
  | Some l =>
      let data := Doc.data doc in
      match toDate (field (js "timestamp") data) with
      | None => None
      | Some ts =>
          Some (l ++ [Message.mk (Doc.id doc)
                        (field (js "text") data)
                        (field (js "userName") data)
                        (if value_eqb (field (js "userId") data)
                                      (VString (Auth.uid cu))
                         then Message.me else Message.other)
                        (match ts with
                         | Some d => toLocaleTimeString d
                         | None => empty
                         end)
                        (js "https://i.pravatar.cc/150?img=3")
                        (field (js "userId") data)
                        ts])
      end
  end.

(** The success callback of the messages listener, attached while
    [cu] was the current user; [None] when it throws. *)
Definition onMessagesSnapshot (cu : Auth.User) (querySnapshot : QuerySnapshot)
    (st : State) : option (State * list Effect) :=
  match fold_left (visit cu) querySnapshot (Some []) with
  | Some msgs => Some (setLoading false (setMessages msgs st), [ScrollToEnd])
  | None => None
  end.

(** The error callback of the messages listener. *)
Definition onMessagesError (st : State) : State * list Effect :=
  (setLoading false st, [ConsoleError (js "Error fetching messages: ")]).

(** What the messages listener is called with. *)
Inductive Event : Type :=
| Snapshot (querySnapshot : QuerySnapshot)
| SnapshotError.

(** A state is stepped by a listener call; a call that throws leaves
    the state cells as they were. *)
Definition step (cu : Auth.User) (c : State * list Effect) (e : Event)
    : State * list Effect :=
  match e with
  | Snapshot qs =>
      match onMessagesSnapshot cu qs (fst c) with
      | Some (st', out) => (st', snd c ++ out)
      | None => c
      end
  | SnapshotError =>
      let '(st', out) := onMessagesError (fst c) in (st', snd c ++ out)
  end.

Definition run (cu : Auth.User) (events : list Event) (st : State)
    : State * list Effect :=
  fold_left (step cu) events (st, []).

(** The fields of the document [sendMessage] writes. *)
Definition outgoing (st : State) (cu : Auth.User) : DocumentData :=
  [(js "text", VString (trim (input st)));
   (js "userId", VString (Auth.uid cu));
   (js "userName", VString (or_default (Auth.displayName cu) (js "Guest")));
   (js "timestamp", VServerTimestamp)].

(** The thread while [await addDoc(...)] of [sendMessage] is pending.  The
    input bar is on screen only once the messages listener is attached, and
    the write goes to the collection the listener reads: the SDK hands the
    listener that collection with the local, unconfirmed document in it.
    The listener's query is ordered by ascending [timestamp], and a server
    timestamp that is still pending orders after every stored value: the
    local document comes last. *)
Definition whilePending (st : State) (srv : Server) (db : Firestore)
    : State * list Effect :=
  match trim (input st), currentUser st with
  | c :: s, Some cu =>
      step cu (st, [])
        (Snapshot (collection db (messagesPath appId room)
                   ++ [local srv (outgoing st cu)]))
  | _, _ => (st, [])
  end.

(** [sendMessage()]: the guard, then the write inside [try]/[catch] (the
    [catch] only logs).  When the awaited write settles, the listener is
    handed the collection as the store then holds it: with the confirmed
    document after an accepted write, without it after a rejected one.
    The promise is fulfilled on every path. *)
Definition sendMessage (st : State) (srv : Server) (db : Firestore)
    : Result State :=
  match trim (input st), currentUser st with
  | c :: s, Some cu =>
      let path := messagesPath appId room in
      let shown := whilePending st srv db in
      match addDoc srv path (outgoing st cu) db with
      | Some (db', _) =>
          let settled := step cu shown (Snapshot (collection db' path)) in
          mkResult db' (setInput empty (fst settled))
            (snd settled ++ [ScrollToEnd]) Fulfilled
      | None =>
          let settled := step cu shown (Snapshot (collection db path)) in
          mkResult db (fst settled)
            (snd settled ++ [ConsoleError (js "Error sending message: ")]) Fulfilled
      end
  | _, _ => mkResult db st [] Fulfilled
  end.

(** [disabled={!input.trim()}] on the send button. *)
Definition sendDisabled (st : State) : bool :=
  match trim (input st) with [] => true | _ => false end.
End WithApp.
End ChatScreen.

(** ** Notions used in the statements *)

(** The chat documents whose [members] field is the sorted pair of the two
    participants: what the lookup of all-users.tsx searches for. *)
Definition records (appId : JSString) (cu : Auth.User) (otherUser : AppUser.t)
    (db : Firestore) : list QueryDocumentSnapshot :=
  filter (fun d => value_eqb (field (js "members") (Doc.data d))
                     (string_array (AllUsers.members cu otherUser)))
         (collection db (chatsPath appId)).

(** The chat documents that the loop of part_002 accepts for the two
    participants. *)
Definition records2 (appId : JSString) (cu : Auth.User) (otherUser : AppUser.t)
    (db : Firestore) : list QueryDocumentSnapshot :=
  filter (AllUsers2.is_chat_of cu otherUser) (collection db (chatsPath appId)).

(** Document ids are never empty. *)
Definition ids_nonempty (docs : list QueryDocumentSnapshot) : Prop :=
  Forall (fun d => Doc.id d <> []) docs.

(** ** Basic facts about strings *)

Lemma str_eqb_eq (x y : JSString) : str_eqb x y = true <-> x = y.
Proof.
  revert y; induction x as [|a x IH]; intros [|b y]; simpl;
    try (split; [discriminate | congruence]); try tauto.
  rewrite andb_true_iff, N.eqb_eq, IH.
  split; [intros [-> ->]; reflexivity | intros H; inversion H; auto].
Qed.

Lemma str_eqb_refl (x : JSString) : str_eqb x x = true.
Proof. apply str_eqb_eq; reflexivity. Qed.

Lemma str_eqb_neq (x y : JSString) : str_eqb x y = false <-> x <> y.
Proof.
  rewrite <- str_eqb_eq. destruct (str_eqb x y); split; congruence.
Qed.

Lemma str_compare_eq (x y : JSString) : str_compare x y = Eq <-> x = y.
Proof. apply list_compare_refl, N.compare_eq_iff. Qed.

Lemma str_compare_antisym (x y : JSString) :
  str_compare y x = CompOpp (str_compare x y).
Proof.
  apply list_compare_antisym.
  - apply N.compare_eq_iff.
  - intros a b. apply N.compare_antisym.
Qed.

Lemma str_ltb_asym (x y : JSString) :
  str_ltb x y = true -> str_ltb y x = false.
Proof.
  unfold str_ltb. rewrite (str_compare_antisym x y).
  destruct (str_compare x y); simpl; congruence.
Qed.

Lemma str_ltb_total (x y : JSString) :
  str_ltb x y = false -> str_ltb y x = false -> x = y.
Proof.
  unfold str_ltb. rewrite (str_compare_antisym x y).
  destruct (str_compare x y) eqn:E; simpl; try congruence.
  intros _ _. apply str_compare_eq, E.
Qed.

(** Sorting a pair does not depend on the order the pair was given in. *)
Lemma sort_pair_comm (a b : JSString) : sort [a; b] = sort [b; a].
Proof.
  simpl.
  destruct (str_ltb b a) eqn:Hba, (str_ltb a b) eqn:Hab; try reflexivity.
  - apply str_ltb_asym in Hba. congruence.
  - rewrite (str_ltb_total _ _ Hab Hba). reflexivity.
Qed.

(** ** The canonical pair *)

(** C4.  Whoever initiates, the two participants yield the same sorted
    member pair and the same joined key: for participants with ids [a] and
    [b], [members] and [chatId] computed in [a]'s session for target [b]
    equal those computed in [b]'s session for target [a], in both revisions
    of the user directory. *)
Theorem canonical_key_symmetric
    (a b : JSString) (nameA nameB : option JSString)
    (dirA dirB photoA photoB : Value) :
  let userA := Auth.mkUser a nameA in
  let userB := Auth.mkUser b nameB in
  let entryA := AppUser.mk a dirA photoA in
  let entryB := AppUser.mk b dirB photoB in
  AllUsers.members userA entryB = AllUsers.members userB entryA
  /\ AllUsers.chatId userA entryB = AllUsers.chatId userB entryA
  /\ AllUsers2.members userA entryB = AllUsers2.members userB entryA.
Proof.
  intros userA userB entryA entryB.
  unfold AllUsers.chatId, AllUsers.members, AllUsers2.members; simpl Auth.uid;
    simpl AppUser.uid.
  rewrite (sort_pair_comm a b). repeat split; reflexivity.
Qed.

Example canonical_key_U1_U2 :
  AllUsers.chatId (Auth.mkUser (js "U2") None)
    (AppUser.mk (js "U1") VUndefined VUndefined)
  = js "U1_U2".
Proof. reflexivity. Qed.

(** ** The store *)

Lemma collection_set_same (path : JSString) docs (db : Firestore) :
  collection (set_collection path docs db) path = docs.
Proof.
  induction db as [|[p ds] db IH]; simpl.
  - now rewrite str_eqb_refl.
  - destruct (str_eqb p path) eqn:E; simpl; rewrite E; auto.
Qed.

Lemma collection_set_other (p q : JSString) docs (db : Firestore) :
  p <> q -> collection (set_collection p docs db) q = collection db q.
Proof.
  intros Hpq. apply str_eqb_neq in Hpq.
  induction db as [|[p0 ds] db IH]; simpl.
  - now rewrite Hpq.
  - destruct (str_eqb p0 p) eqn:E; simpl.
    + apply str_eqb_eq in E; subst p0. now rewrite Hpq.
    + destruct (str_eqb p0 q); auto.
Qed.

Lemma filter_insert_at {A : Type} (f : A -> bool) (n : nat) (x : A) (l : list A) :
  filter f (insert_at n x l)
  = filter f (firstn n l) ++ (if f x then [x] else []) ++ filter f (skipn n l).
Proof.
  unfold insert_at. rewrite filter_app. simpl. now destruct (f x).
Qed.

Lemma filter_firstn_skipn {A : Type} (f : A -> bool) (n : nat) (l : list A) :
  filter f l = filter f (firstn n l) ++ filter f (skipn n l).
Proof. now rewrite <- filter_app, firstn_skipn. Qed.

Lemma filter_insert_at_nil {A : Type} (f : A -> bool) (n : nat) (x : A) (l : list A) :
  filter f l = [] -> f x = true -> filter f (insert_at n x l) = [x].
Proof.
  intros Hnil Hx. rewrite filter_insert_at, Hx.
  rewrite (filter_firstn_skipn f n l) in Hnil.
  apply app_eq_nil in Hnil as [-> ->]. reflexivity.
Qed.

Lemma filter_insert_at_length {A : Type} (f : A -> bool) (n : nat) (x : A) (l : list A) :
  List.length (filter f (insert_at n x l))
  = List.length (filter f l) + (if f x then 1 else 0).
Proof.
  rewrite filter_insert_at, (filter_firstn_skipn f n l), !length_app.
  destruct (f x); simpl; lia.
Qed.

Lemma value_eqb_string_array (l : list JSString) :
  value_eqb (string_array l) (string_array l) = true.
Proof.
  unfold string_array. simpl.
  induction l as [|s l IH]; simpl; auto.
  now rewrite str_eqb_refl, IH.
Qed.

(** Paths of distinct collections. *)
Lemma messagesPath_not_chatsPath (appId chatId : JSString) :
  messagesPath appId chatId <> chatsPath appId.
Proof.
  unfold messagesPath, chatsPath. intros H.
  apply app_inv_head in H. apply app_inv_head in H.
  apply (f_equal (@List.length N)) in H.
  rewrite !length_app in H. simpl in H. lia.
Qed.

Lemma messagesPath_inj (appId c1 c2 : JSString) :
  messagesPath appId c1 = messagesPath appId c2 -> c1 = c2.
Proof.
  unfold messagesPath. intros H.
  do 3 apply app_inv_head in H. now apply app_inv_tail in H.
Qed.

(** ** Looking a conversation up, or creating it (all-users.tsx) *)

Lemma getDocs_unanswered (db : Firestore) (q : Query) : getDocs false db q = None.
Proof. reflexivity. Qed.

Lemma getDocs_lookup (appId : JSString) cu otherUser (db : Firestore) :
  getDocs true db (AllUsers.lookup appId cu otherUser)
  = Some (firstn 1 (records appId cu otherUser db)).
Proof.
  unfold getDocs, AllUsers.lookup, records.
  cbn [negb q_constraints q_path existsb is_orderBy orb limit_of].
  f_equal. f_equal. apply filter_ext. intros d.
  cbn [forallb matches]. now rewrite !andb_true_r.
Qed.

Lemma new_chat_is_record (srv : Server) cu otherUser (rest : DocumentData) :
  value_eqb
    (field (js "members")
       (Doc.data
          (stored srv
             ((js "members", string_array (AllUsers.members cu otherUser)) :: rest))))
    (string_array (AllUsers.members cu otherUser)) = true.
Proof.
  unfold stored. cbn [Doc.data List.map fst snd field].
  change (str_eqb (js "members") (js "members")) with true. cbv iota.
  unfold resolve, string_array at 1. fold (string_array (AllUsers.members cu otherUser)).
  apply value_eqb_string_array.
Qed.

Section GetOrCreate.
Variable appId : JSString.
Variables (st : AllUsers.State) (cu : Auth.User) (otherUser : AppUser.t).
Hypothesis signed_in : AllUsers.currentUser st = Some cu.

(** When a record of the pair is stored and the lookup is answered, the
    first one listed is opened and the store is left alone. *)
Lemma handleCreateChat_found (srv : Server) (db : Firestore) d ds :
  records appId cu otherUser db = d :: ds ->
  AllUsers.handleCreateChat appId st otherUser true srv db
  = mkResult db st [RouterPush (chat_url (Doc.id d))] Fulfilled.
Proof.
  intros Hrec. unfold AllUsers.handleCreateChat.
  now rewrite signed_in, getDocs_lookup, Hrec.
Qed.

(** When none is stored, the lookup is answered and the write accepted, one
    is added under the server's id and opened; it is then the only record
    of the pair. *)
Lemma handleCreateChat_created (srv : Server) (db : Firestore) :
  accepts srv = true ->
  records appId cu otherUser db = [] ->
  exists d,
    Doc.id d = autoId srv
    /\ records appId cu otherUser
         (res_db (AllUsers.handleCreateChat appId st otherUser true srv db)) = [d]
    /\ res_effects (AllUsers.handleCreateChat appId st otherUser true srv db)
       = [RouterPush (chat_url (autoId srv))]
    /\ field (js "members") (Doc.data d)
       = string_array (AllUsers.members cu otherUser).
Proof.
  intros Hok Hrec. unfold AllUsers.handleCreateChat.
  rewrite signed_in, getDocs_lookup, Hrec. cbn [firstn].
  unfold addDoc. rewrite Hok. cbn [res_db res_effects].
  eexists. split; [|split; [|split]].
  2:{ unfold records. rewrite collection_set_same.
      apply filter_insert_at_nil; [exact Hrec|]. apply new_chat_is_record. }
  all: reflexivity.
Qed.

(** Two calls in a row open the same conversation, and together add a
    record only when there was none. *)
Lemma handleCreateChat_twice (srv1 srv2 : Server) (db : Firestore) :
  accepts srv1 = true ->
  let r1 := AllUsers.handleCreateChat appId st otherUser true srv1 db in
  let r2 := AllUsers.handleCreateChat appId st otherUser true srv2 (res_db r1) in
  exists d,
    In d (records appId cu otherUser (res_db r2))
    /\ pushed (res_effects r1) = [chat_url (Doc.id d)]
    /\ pushed (res_effects r2) = [chat_url (Doc.id d)]
    /\ List.length (records appId cu otherUser (res_db r2))
       = Nat.max 1 (List.length (records appId cu otherUser db)).
Proof.
  intros Hok r1 r2. subst r1 r2.
  destruct (records appId cu otherUser db) as [|d ds] eqn:Hrec.
  - destruct (handleCreateChat_created srv1 db Hok Hrec) as (d & Hid & Hrec1 & Heff1 & _).
    rewrite (handleCreateChat_found srv2 _ Hrec1). cbn [res_db res_effects].
    rewrite Hrec1, Heff1. exists d. rewrite Hid.
    repeat split; simpl; auto.
  - rewrite (handleCreateChat_found srv1 db Hrec). cbn [res_db res_effects].
    rewrite (handleCreateChat_found srv2 db Hrec). cbn [res_db res_effects].
    rewrite Hrec. exists d. repeat split; simpl; auto.
Qed.
End GetOrCreate.

(** ** Looking a conversation up, or creating it (part_002) *)

Lemma getDocs_lookup2 (appId : JSString) cu (db : Firestore) :
  getDocs true db (AllUsers2.lookup appId cu)
  = Some (filter
            (fun d => matches (Where (js "members") OpArrayContains
                                 (VString (Auth.uid cu))) d)
            (collection db (chatsPath appId))).
Proof.
  unfold getDocs, AllUsers2.lookup.
  cbn [negb q_constraints q_path existsb is_orderBy orb limit_of].
  f_equal. apply filter_ext. intros d.
  cbn [forallb]. now rewrite andb_true_r.
Qed.

(** A chat of the two participants is among the chats of the current user. *)
Lemma is_chat_of_contains cu otherUser d :
  AllUsers2.is_chat_of cu otherUser d = true ->
  matches (Where (js "members") OpArrayContains (VString (Auth.uid cu))) d = true.
Proof.
  unfold AllUsers2.is_chat_of, AllUsers2.members_of, matches.
  destruct (field (js "members") (Doc.data d)); simpl; try discriminate.
  intros H. apply andb_true_iff in H as [H _].
  apply andb_true_iff in H as [_ H]. exact H.
Qed.

Lemma existing_fold_filter cu otherUser (g : QueryDocumentSnapshot -> bool) l acc :
  (forall d, AllUsers2.is_chat_of cu otherUser d = true -> g d = true) ->
  fold_left
    (fun existingChatId doc =>
       if AllUsers2.is_chat_of cu otherUser doc then Some (Doc.id doc)
       else existingChatId) (filter g l) acc
  = fold_left
      (fun existingChatId doc =>
         if AllUsers2.is_chat_of cu otherUser doc then Some (Doc.id doc)
         else existingChatId) l acc.
Proof.
  intros Hg. revert acc. induction l as [|x l IH]; intros acc; simpl; auto.
  destruct (g x) eqn:Egx; simpl.
  - apply IH.
  - destruct (AllUsers2.is_chat_of cu otherUser x) eqn:E.
    + apply Hg in E. congruence.
    + apply IH.
Qed.

(** The loop keeps the id of the last matching document. *)
Lemma existing_last cu otherUser l :
  AllUsers2.existing cu otherUser l
  = last (List.map (fun d => Some (Doc.id d))
            (filter (AllUsers2.is_chat_of cu otherUser) l)) None.
Proof.
  unfold AllUsers2.existing.
  induction l as [|x l IH] using rev_ind; simpl; auto.
  rewrite fold_left_app, filter_app, map_app. simpl.
  destruct (AllUsers2.is_chat_of cu otherUser x); simpl.
  - now rewrite last_last.
  - now rewrite app_nil_r.
Qed.

Lemma existing_getDocs (appId : JSString) cu otherUser (db : Firestore) :
  option_map (AllUsers2.existing cu otherUser)
    (getDocs true db (AllUsers2.lookup appId cu))
  = Some (last (List.map (fun d => Some (Doc.id d)) (records2 appId cu otherUser db))
            None).
Proof.
  rewrite getDocs_lookup2. simpl. f_equal.
  unfold AllUsers2.existing.
  rewrite existing_fold_filter by apply is_chat_of_contains.
  apply existing_last.
Qed.

Lemma sort_pair_cases (a b : JSString) :
  sort [a; b] = [a; b] \/ sort [a; b] = [b; a].
Proof. simpl. destruct (str_ltb b a); auto. Qed.

Lemma value_eqb_string (s : JSString) : value_eqb (VString s) (VString s) = true.
Proof. simpl. apply str_eqb_refl. Qed.

Lemma new_chat_is_chat_of (srv : Server) cu otherUser (rest : DocumentData) :
  AllUsers2.is_chat_of cu otherUser
    (stored srv ((js "members", string_array (AllUsers2.members cu otherUser)) :: rest))
  = true.
Proof.
  unfold AllUsers2.is_chat_of, AllUsers2.members_of, stored.
  cbn [Doc.data List.map fst snd field].
  change (str_eqb (js "members") (js "members")) with true. cbv iota.
  unfold AllUsers2.members.
  destruct (sort_pair_cases (Auth.uid cu) (AppUser.uid otherUser)) as [-> | ->];
    cbn [string_array List.map resolve List.length Nat.eqb existsb andb];
    rewrite !value_eqb_string; cbn [orb andb]; now rewrite ?orb_true_r.
Qed.

Lemma last_some_in {A : Type} (f : A -> JSString) (l : list A) (x : A) (xs : list A) :
  l = x :: xs ->
  exists d, In d l /\ last (List.map (fun d => Some (f d)) l) None = Some (f d).
Proof.
  intros ->. revert x. induction xs as [|y ys IH]; intros x.
  - exists x. simpl. auto.
  - destruct (IH y) as (d & Hin & Hlast). exists d. split.
    + right. exact Hin.
    + exact Hlast.
Qed.

Section GetOrCreate2.
Variable appId : JSString.
Variables (st : AllUsers2.State) (cu : Auth.User) (otherUser : AppUser.t).
Hypothesis signed_in : AllUsers2.currentUser st = Some cu.

Lemma handleCreateChat2_found (db : Firestore) x xs :
  ids_nonempty (collection db (chatsPath appId)) ->
  records2 appId cu otherUser db = x :: xs ->
  exists d,
    In d (records2 appId cu otherUser db)
    /\ forall srv srvMsg,
         AllUsers2.handleCreateChat appId st otherUser true srv srvMsg db
         = mkResult db st
             [ConsoleLog (js "Existing chat found:");
              RouterPush (chat_url (Doc.id d))]
             Fulfilled.
Proof.
  intros Hids Hrec.
  destruct (last_some_in Doc.id Hrec) as (d & Hin & Hlast).
  exists d. split; [exact Hin|]. intros srv srvMsg.
  pose proof (existing_getDocs appId cu otherUser db) as Hex.
  unfold AllUsers2.handleCreateChat. rewrite signed_in.
  destruct (getDocs true db (AllUsers2.lookup appId cu)) as [qs|]; [|discriminate].
  simpl in Hex. injection Hex as Hex. rewrite Hex, Hlast.
  assert (Hne : Doc.id d <> []).
  { unfold ids_nonempty in Hids. rewrite Forall_forall in Hids.
    apply Hids. unfold records2 in Hin. apply filter_In in Hin. tauto. }
  destruct (Doc.id d) as [|c s]; [congruence|]. reflexivity.
Qed.

Lemma handleCreateChat2_created (srv srvMsg : Server) (db : Firestore) :
  accepts srv = true ->
  accepts srvMsg = true ->
  records2 appId cu otherUser db = [] ->
  exists d,
    Doc.id d = autoId srv
    /\ records2 appId cu otherUser
         (res_db (AllUsers2.handleCreateChat appId st otherUser true srv srvMsg db)) = [d]
    /\ collection
         (res_db (AllUsers2.handleCreateChat appId st otherUser true srv srvMsg db))
         (chatsPath appId)
       = insert_at (position srv) d (collection db (chatsPath appId))
    /\ pushed (res_effects
                 (AllUsers2.handleCreateChat appId st otherUser true srv srvMsg db))
       = [chat_url (autoId srv)]
    /\ field (js "members") (Doc.data d)
       = string_array (AllUsers2.members cu otherUser).
Proof.
  intros Hok HokMsg Hrec.
  pose proof (existing_getDocs appId cu otherUser db) as Hex.
  unfold AllUsers2.handleCreateChat. rewrite signed_in.
  destruct (getDocs true db (AllUsers2.lookup appId cu)) as [qs|]; [|discriminate].
  simpl in Hex. injection Hex as Hex. rewrite Hex, Hrec.
  cbn [List.map last AllUsers2.nonempty_id].
  unfold addDoc. rewrite Hok, HokMsg. cbn [res_db res_effects].
  assert (Hcol : forall docs db0,
             collection (set_collection (messagesPath appId (autoId srv)) docs db0)
               (chatsPath appId) = collection db0 (chatsPath appId)).
  { intros. apply collection_set_other, messagesPath_not_chatsPath. }
  eexists. split; [|split; [|split; [|split]]].
  2:{ unfold records2. rewrite Hcol, collection_set_same.
      apply filter_insert_at_nil; [exact Hrec|]. apply new_chat_is_chat_of. }
  - reflexivity.
  - now rewrite Hcol, collection_set_same.
  - reflexivity.
  - reflexivity.
Qed.

Lemma ids_nonempty_insert_at (n : nat) d docs :
  Doc.id d <> [] -> ids_nonempty docs -> ids_nonempty (insert_at n d docs).
Proof.
  unfold ids_nonempty, insert_at. intros Hd Hdocs.
  rewrite <- (firstn_skipn n docs) in Hdocs.
  apply Forall_app in Hdocs as [H1 H2].
  apply Forall_app. split; [exact H1|]. constructor; assumption.
Qed.

Lemma handleCreateChat2_twice (srv1 msg1 srv2 msg2 : Server) (db : Firestore) :
  ids_nonempty (collection db (chatsPath appId)) ->
  autoId srv1 <> [] ->
  accepts srv1 = true ->
  accepts msg1 = true ->
  let r1 := AllUsers2.handleCreateChat appId st otherUser true srv1 msg1 db in
  let r2 := AllUsers2.handleCreateChat appId st otherUser true srv2 msg2 (res_db r1) in
  exists d,
    In d (records2 appId cu otherUser (res_db r2))
    /\ pushed (res_effects r1) = [chat_url (Doc.id d)]
    /\ pushed (res_effects r2) = [chat_url (Doc.id d)]
    /\ List.length (records2 appId cu otherUser (res_db r2))
       = Nat.max 1 (List.length (records2 appId cu otherUser db)).
Proof.
  intros Hids Hauto Hok HokMsg r1 r2. subst r1 r2.
  destruct (records2 appId cu otherUser db) as [|x xs] eqn:Hrec.
  - destruct (handleCreateChat2_created srv1 msg1 db Hok HokMsg Hrec)
      as (d & Hid & Hrec1 & Hcol1 & Heff1 & _).
    assert (Hids1 : ids_nonempty
              (collection
                 (res_db (AllUsers2.handleCreateChat appId st otherUser true srv1 msg1 db))
                 (chatsPath appId))).
    { rewrite Hcol1. apply ids_nonempty_insert_at; [congruence | exact Hids]. }
    destruct (handleCreateChat2_found _ Hids1 Hrec1) as (d' & Hin & Hfound).
    rewrite Hfound. rewrite Hrec1 in Hin. destruct Hin as [<- | []].
    cbn [res_db res_effects]. rewrite Hrec1, Heff1. exists d. rewrite Hid.
    repeat split; simpl; auto.
  - destruct (handleCreateChat2_found db Hids Hrec) as (d & Hin & Hfound).
    rewrite (Hfound srv1 msg1). cbn [res_db res_effects].
    rewrite (Hfound srv2 msg2). cbn [res_db res_effects]. exists d.
    split; [exact Hin|]. rewrite Hrec. repeat split; simpl; auto.
Qed.
End GetOrCreate2.

(** ** Sample data *)

Definition app : JSString := js "demo".
Definition userU1 : Auth.User := Auth.mkUser (js "U1") (Some (js "Una")).
Definition userU2 : Auth.User := Auth.mkUser (js "U2") (Some (js "Dov")).
Definition entryU1 : AppUser.t := AppUser.mk (js "U1") (VString (js "Una")) VNull.
Definition entryU2 : AppUser.t := AppUser.mk (js "U2") (VString (js "Dov")) VNull.

Definition chat_doc (i : JSString) (members : list JSString) (stamp : Value)
    : QueryDocumentSnapshot :=
  Doc.mk i [(js "members", string_array members);
            (js "chatName", VString (js "Una & Dov"));
            (js "lastMessageText", VString (js "hello"));
            (js "lastMessageTimestamp", stamp)].

(** A store in which a race has already left two records of the pair. *)
Definition db_duplicates : Firestore :=
  [(chatsPath app,
    [chat_doc (js "c1") [js "U1"; js "U2"] (VTimestamp 10);
     chat_doc (js "c2") [js "U1"; js "U2"] (VTimestamp 11)])].

Definition db_empty : Firestore := [].

(** Servers that accept the write, and one that rejects it. *)
Definition srvA : Server := mkServer true (js "n1") 0 100.
Definition srvB : Server := mkServer true (js "n2") 0 200.
Definition srvC : Server := mkServer true (js "n3") 0 300.
Definition srvD : Server := mkServer true (js "n4") 0 400.
Definition srvNo : Server := mkServer false (js "n5") 0 500.

Definition inDirectoryU1 : AllUsers.State :=
  AllUsers.mkState (Some userU1) [entryU2] false.
Definition inDirectory2U1 : AllUsers2.State :=
  AllUsers2.mkState (Some userU1) [entryU2] false.

(** ** Get-or-create, twice in a row *)

(** C1, as the code has it.  Two calls of [handleCreateChat] in a row, from
    the same signed-in user for the same other participant, with no other
    writer in between, when the store answers both lookups and accepts what
    the first call writes, open the same conversation both times, and that
    conversation is a stored record of the pair.  Together they add a
    record only when none was stored: afterwards the store holds
    [max 1 n] records of the pair, where [n] is the number before; exactly
    one whenever it held at most one.  Both revisions of the screen behave
    so, each for the records its own lookup recognises (document ids are
    non-empty, which the test [if (existingChatId)] of part_002 relies on). *)
Theorem get_or_create_twice
    (appId : JSString) (cu : Auth.User) (otherUser : AppUser.t)
    (st : AllUsers.State) (st2 : AllUsers2.State)
    (srv1 srv2 msg1 msg2 : Server) (db : Firestore)
    (signed_in : AllUsers.currentUser st = Some cu)
    (signed_in2 : AllUsers2.currentUser st2 = Some cu)
    (ids : ids_nonempty (collection db (chatsPath appId)))
    (fresh : autoId srv1 <> [])
    (chat_accepted : accepts srv1 = true)
    (message_accepted : accepts msg1 = true) :
  (let r1 := AllUsers.handleCreateChat appId st otherUser true srv1 db in
   let r2 := AllUsers.handleCreateChat appId st otherUser true srv2 (res_db r1) in
   exists d,
     In d (records appId cu otherUser (res_db r2))
     /\ pushed (res_effects r1) = [chat_url (Doc.id d)]
     /\ pushed (res_effects r2) = [chat_url (Doc.id d)]
     /\ List.length (records appId cu otherUser (res_db r2))
        = Nat.max 1 (List.length (records appId cu otherUser db)))
  /\
  (let r1 := AllUsers2.handleCreateChat appId st2 otherUser true srv1 msg1 db in
   let r2 := AllUsers2.handleCreateChat appId st2 otherUser true srv2 msg2 (res_db r1) in
   exists d,
     In d (records2 appId cu otherUser (res_db r2))
     /\ pushed (res_effects r1) = [chat_url (Doc.id d)]
     /\ pushed (res_effects r2) = [chat_url (Doc.id d)]
     /\ List.length (records2 appId cu otherUser (res_db r2))
        = Nat.max 1 (List.length (records2 appId cu otherUser db))).
Proof.
  split.
  - apply handleCreateChat_twice; assumption.
  - apply handleCreateChat2_twice; assumption.
Qed.

Lemma get_or_create_twice_witness :
  (let r1 := AllUsers.handleCreateChat app inDirectoryU1 entryU2 true srvA db_empty in
   let r2 := AllUsers.handleCreateChat app inDirectoryU1 entryU2 true srvB (res_db r1) in
   exists d,
     In d (records app userU1 entryU2 (res_db r2))
     /\ pushed (res_effects r1) = [chat_url (Doc.id d)]
     /\ pushed (res_effects r2) = [chat_url (Doc.id d)]
     /\ List.length (records app userU1 entryU2 (res_db r2))
        = Nat.max 1 (List.length (records app userU1 entryU2 db_empty)))
  /\
  (let r1 :=
     AllUsers2.handleCreateChat app inDirectory2U1 entryU2 true srvA srvC db_empty in
   let r2 :=
     AllUsers2.handleCreateChat app inDirectory2U1 entryU2 true srvB srvD (res_db r1) in
   exists d,
     In d (records2 app userU1 entryU2 (res_db r2))
     /\ pushed (res_effects r1) = [chat_url (Doc.id d)]
     /\ pushed (res_effects r2) = [chat_url (Doc.id d)]
     /\ List.length (records2 app userU1 entryU2 (res_db r2))
        = Nat.max 1 (List.length (records2 app userU1 entryU2 db_empty))).
Proof.
  apply (@get_or_create_twice app userU1 entryU2 inDirectoryU1 inDirectory2U1
           srvA srvB srvC srvD db_empty).
  - reflexivity.
  - reflexivity.
  - constructor.
  - discriminate.
  - reflexivity.
  - reflexivity.
Defined.

(** On a store that already holds two records of the pair, the two calls,
    both answered, open the same conversation and leave both records: two,
    not one. *)
Lemma get_or_create_keeps_duplicates :
  let r1 := AllUsers.handleCreateChat app inDirectoryU1 entryU2 true srvA db_duplicates in
  let r2 := AllUsers.handleCreateChat app inDirectoryU1 entryU2 true srvB (res_db r1) in
  pushed (res_effects r1) = [chat_url (js "c1")]
  /\ pushed (res_effects r2) = [chat_url (js "c1")]
  /\ List.length (records app userU1 entryU2 (res_db r2)) = 2
  /\ List.length (records app userU1 entryU2 (res_db r2)) <> 1.
Proof. vm_compute. repeat split; discriminate. Qed.

Example get_or_create_from_scratch :
  let r1 :=
    AllUsers2.handleCreateChat app inDirectory2U1 entryU2 true srvA srvC db_empty in
  List.map Doc.id (collection (res_db r1) (chatsPath app)) = [js "n1"]
  /\ List.map Doc.id (collection (res_db r1) (messagesPath app (js "n1"))) = [js "n3"]
  /\ pushed (res_effects r1) = [chat_url (js "n1")].
Proof. vm_compute. repeat split. Qed.

(** The names in the stored [chatName]: a directory entry without
    [displayName] is printed as "undefined" by all-users.tsx. *)
Example chat_name_of_unnamed_entry :
  let r :=
    AllUsers.handleCreateChat app inDirectoryU1
      (AppUser.mk (js "U2") VUndefined VUndefined) true srvA db_empty in
  List.map (fun d => field (js "chatName") (Doc.data d))
    (collection (res_db r) (chatsPath app))
  = [VString (js "Una & undefined")].
Proof. vm_compute. reflexivity. Qed.

(** ** A conversation with oneself *)








(** ** The user directory *)

Definition user_doc (i name : JSString) : QueryDocumentSnapshot :=
  Doc.mk i [(js "displayName", VString name); (js "photoURL", VNull)].

Definition users_snapshot : QuerySnapshot :=
  [user_doc (js "U1") (js "Una"); user_doc (js "U2") (js "Dov")].

(** part_002: the listener compares every document id with the [user] it
    was given, so the own entry never reaches the list. *)
Lemma visit2_excludes_self (user : Auth.User) (qs : QuerySnapshot) (acc : list AppUser.t) :
  Forall (fun u => AppUser.uid u <> Auth.uid user) acc ->
  Forall (fun u => AppUser.uid u <> Auth.uid user)
         (fold_left (AllUsers2.visit user) qs acc).
Proof.
  revert acc. induction qs as [|doc qs IH]; intros acc Hacc; simpl; auto.
  apply IH. unfold AllUsers2.visit.
  destruct (str_eqb (Doc.id doc) (Auth.uid user)) eqn:E; simpl; auto.
  apply Forall_app. split; auto.
  constructor; auto. simpl. now apply str_eqb_neq.
Qed.

Lemma directory2_excludes_self (appId : JSString) (user : Auth.User)
    (qs : QuerySnapshot) (c : AllUsers2.Component) :
  let c1 := fst (AllUsers2.authCallback appId (Some user) c) in
  let c2 := AllUsers2.deliver qs c1 in
  AllUsers2.currentUser (AllUsers2.state c2) = Some user
  /\ Forall (fun u => AppUser.uid u <> Auth.uid user)
            (AllUsers2.users (AllUsers2.state c2)).
Proof.
  simpl. split; auto.
  apply visit2_excludes_self. constructor.
Qed.

(** all-users.tsx: the listener closed over the [currentUser] of the first
    render, which is [null]; its test is true for every document. *)
Lemma visit_keeps_all (qs : QuerySnapshot) (acc : list AppUser.t) :
  List.map AppUser.uid (fold_left (AllUsers.visit None) qs acc)
  = List.map AppUser.uid acc ++ List.map Doc.id qs.
Proof.
  revert acc. induction qs as [|doc qs IH]; intros acc; simpl.
  - now rewrite app_nil_r.
  - rewrite IH. unfold AllUsers.visit. simpl.
    now rewrite map_app, <- app_assoc.
Qed.

Lemma directory_lists_every_document (appId : JSString) (user : Auth.User)
    (qs : QuerySnapshot) :
  let c1 := fst (AllUsers.authCallback appId (Some user) AllUsers.mount) in
  let c2 := AllUsers.deliver qs c1 in
  AllUsers.currentUser (AllUsers.state c2) = Some user
  /\ List.map AppUser.uid (AllUsers.users (AllUsers.state c2)) = List.map Doc.id qs.
Proof.
  simpl. split; auto. apply (visit_keeps_all qs []).
Qed.

(** C10 at a failing input.  U1 signs in on the screen of all-users.tsx and
    the users snapshot holds the documents U1 and U2: the exposed list
    contains the entry of U1, the current user.  On the same input the
    revision part_002 lists U2 only. *)
Theorem directory_lists_current_user :
  let c1 := fst (AllUsers.authCallback app (Some userU1) AllUsers.mount) in
  let c2 := AllUsers.deliver users_snapshot c1 in
  let d1 := fst (AllUsers2.authCallback app (Some userU1) AllUsers2.mount) in
  let d2 := AllUsers2.deliver users_snapshot d1 in
  AllUsers.currentUser (AllUsers.state c2) = Some userU1
  /\ List.map AppUser.uid (AllUsers.users (AllUsers.state c2)) = [js "U1"; js "U2"]
  /\ In entryU1 (AllUsers.users (AllUsers.state c2))
  /\ List.map AppUser.uid (AllUsers2.users (AllUsers2.state d2)) = [js "U2"].
Proof. vm_compute. intuition. Qed.

(** ** Which messages the thread reads *)

Definition inThreadU1 : ChatScreen.State :=
  ChatScreen.mkState [] empty (Some userU1) true.

(** Whatever conversation was opened, the listener of [ChatScreen] is
    attached to the messages of the room [general_chat], in ascending
    [timestamp] order. *)
Lemma subscribe_reads_room (appId : JSString) (st : ChatScreen.State) cu :
  ChatScreen.currentUser st = Some cu ->
  snd (ChatScreen.subscribe appId st)
  = [OnSnapshot (query (messagesPath appId (js "general_chat"))
                   [OrderBy (js "timestamp") Asc])].
Proof. intros H. unfold ChatScreen.subscribe. now rewrite H. Qed.

Lemma room_is_not_the_conversation (appId chatId : JSString) :
  chatId <> ChatScreen.room ->
  messagesPath appId ChatScreen.room <> messagesPath appId chatId.
Proof.
  intros Hne Heq. apply messagesPath_inj in Heq. congruence.
Qed.

(** C3 at a failing input.  U1 starts a conversation with U2 on the screen
    of part_002: the chat document n1 is created, its first message goes to
    the collection [chats/n1/messages], and the router opens
    [/chat?chatId=n1].  The thread that is then shown listens to
    [chats/general_chat/messages], ordered by ascending [timestamp]: not the
    collection of conversation n1, whose message it never receives. *)
Theorem thread_reads_general_chat :
  let r := AllUsers2.handleCreateChat app inDirectory2U1 entryU2 true srvA srvC db_empty in
  let listened := snd (ChatScreen.subscribe app inThreadU1) in
  pushed (res_effects r) = [chat_url (js "n1")]
  /\ List.map (fun d => field (js "text") (Doc.data d))
       (collection (res_db r) (messagesPath app (js "n1")))
     = [VString (js "Chat started")]
  /\ listened = [OnSnapshot (query (messagesPath app (js "general_chat"))
                               [OrderBy (js "timestamp") Asc])]
  /\ messagesPath app (js "general_chat") <> messagesPath app (js "n1")
  /\ collection (res_db r) (messagesPath app (js "general_chat")) = [].
Proof.
  vm_compute. repeat split. discriminate.
Qed.


(** ** Sending a message *)

(** Empty, or made of white space only. *)
Definition blank (s : JSString) : Prop :=
  Forall (fun c => is_white_space c = true) s.

Lemma trim_start_nil (s : JSString) : trim_start s = [] <-> blank s.
Proof.
  unfold blank. induction s as [|c s IH]; simpl.
  - split; auto.
  - destruct (is_white_space c) eqn:E.
    + rewrite IH. split; intros H; [constructor; auto | now inversion H].
    + split; [discriminate|]. intros H. inversion H. congruence.
Qed.

Lemma trim_start_head (s : JSString) c t :
  trim_start s = c :: t -> is_white_space c = false.
Proof.
  induction s as [|a s IH]; simpl; [discriminate|].
  destruct (is_white_space a) eqn:E; auto.
  intros H. injection H as -> _. exact E.
Qed.

Lemma blank_rev (s : JSString) : blank (rev s) <-> blank s.
Proof.
  unfold blank. split; intros H.
  - rewrite <- (rev_involutive s). now apply Forall_rev.
  - now apply Forall_rev.
Qed.

Lemma trim_nil (s : JSString) : trim s = [] <-> blank s.
Proof.
  unfold trim. split.
  - intros H. apply (f_equal (@rev N)) in H. rewrite rev_involutive in H.
    simpl in H. rewrite trim_start_nil, blank_rev in H.
    destruct (trim_start s) as [|c t] eqn:E.
    + now apply trim_start_nil.
    + apply trim_start_head in E. inversion H as [|? ? Hc _]. simpl in Hc. congruence.
  - intros H. apply trim_start_nil in H. rewrite H. reflexivity.
Qed.

Lemma sendMessage_blank appId toLocaleTimeString (st : ChatScreen.State) srv db :
  blank (ChatScreen.input st) ->
  ChatScreen.sendMessage appId toLocaleTimeString st srv db
  = mkResult db st [] Fulfilled.
Proof.
  intros H. apply trim_nil in H. unfold ChatScreen.sendMessage. now rewrite H.
Qed.

Lemma sendMessage_fulfilled appId toLocaleTimeString (st : ChatScreen.State) srv db :
  res_promise (ChatScreen.sendMessage appId toLocaleTimeString st srv db) = Fulfilled.
Proof.
  unfold ChatScreen.sendMessage.
  destruct (trim (ChatScreen.input st)); auto.
  destruct (ChatScreen.currentUser st); auto.
  destruct (addDoc _ _ _ _) as [[? ?]|]; auto.
Qed.

(** C6, as the code has it.  For every input that is empty or white space
    only, [sendMessage] returns at its guard: the store is as before (no
    message document is written), the state cells are as before, nothing is
    logged or navigated, and the promise is fulfilled, so no InvalidMessage
    or other error reaches the caller.  The send button is disabled for
    these inputs. *)
Theorem blank_message_is_not_sent
    (appId : JSString) (toLocaleTimeString : Z -> JSString)
    (st : ChatScreen.State) (srv : Server) (db : Firestore)
    (Hblank : blank (ChatScreen.input st)) :
  let r := ChatScreen.sendMessage appId toLocaleTimeString st srv db in
  res_db r = db
  /\ res_state r = st
  /\ res_effects r = []
  /\ res_promise r = Fulfilled
  /\ ChatScreen.sendDisabled st = true.
Proof.
  intros r. subst r.
  rewrite (@sendMessage_blank appId toLocaleTimeString st srv db Hblank).
  repeat split. unfold ChatScreen.sendDisabled.
  apply trim_nil in Hblank. now rewrite Hblank.
Qed.

Definition plainTime (millis : Z) : JSString := js "12:00:00".

Definition composing (body : JSString) : ChatScreen.State :=
  ChatScreen.mkState [] body (Some userU1) false.

Lemma blank_message_is_not_sent_witness :
  let r := ChatScreen.sendMessage app plainTime (composing (js "  ")) srvA db_empty in
  res_db r = db_empty
  /\ res_state r = composing (js "  ")
  /\ res_effects r = []
  /\ res_promise r = Fulfilled
  /\ ChatScreen.sendDisabled (composing (js "  ")) = true.
Proof.
  apply (@blank_message_is_not_sent app plainTime (composing (js "  ")) srvA db_empty).
  repeat constructor.
Defined.

(** A body of two spaces: the call is fulfilled, not rejected with
    InvalidMessage, and leaves no trace. *)
Lemma blank_message_is_not_signalled :
  let r := ChatScreen.sendMessage app plainTime (composing (js "  ")) srvA db_empty in
  res_promise r = Fulfilled
  /\ res_promise r <> Rejected (js "InvalidMessage")
  /\ res_effects r = [].
Proof. vm_compute. repeat split. discriminate. Qed.

(** ** The messages listener *)

(** Message documents whose [timestamp] is a Timestamp, [null] or absent:
    what [serverTimestamp()] leaves in a document, pending or confirmed. *)
Definition dated (qs : QuerySnapshot) : Prop :=
  Forall (fun d => ChatScreen.toDate (field (js "timestamp") (Doc.data d)) <> None) qs.

(** The entry the messages listener builds for [doc] once
    [data.timestamp?.toDate()] has returned [ts]. *)
Definition message_from (toLocaleTimeString : Z -> JSString) (cu : Auth.User)
    (doc : QueryDocumentSnapshot) (ts : option Z) : Message.t :=
  Message.mk (Doc.id doc)
    (field (js "text") (Doc.data doc))
    (field (js "userName") (Doc.data doc))
    (if value_eqb (field (js "userId") (Doc.data doc)) (VString (Auth.uid cu))
     then Message.me else Message.other)
    (match ts with Some d => toLocaleTimeString d | None => empty end)
    (js "https://i.pravatar.cc/150?img=3")
    (field (js "userId") (Doc.data doc))
    ts.

(** The date of a document's [timestamp], when it has one. *)
Definition date_of (doc : QueryDocumentSnapshot) : option Z :=
  match ChatScreen.toDate (field (js "timestamp") (Doc.data doc)) with
  | Some ts => ts
  | None => None
  end.

(** The entry under which a readable document is shown to [cu]. *)
Definition shown_as (toLocaleTimeString : Z -> JSString) (cu : Auth.User)
    (doc : QueryDocumentSnapshot) : Message.t :=
  message_from toLocaleTimeString cu doc (date_of doc).

Section MessagesListener.
Variable toLocaleTimeString : Z -> JSString.
Variable cu : Auth.User.

Lemma visit_thrown (qs : QuerySnapshot) :
  fold_left (ChatScreen.visit toLocaleTimeString cu) qs None = None.
Proof. induction qs; simpl; auto. Qed.

Lemma visit_step (acc : list Message.t) (doc : QueryDocumentSnapshot) (ts : option Z) :
  ChatScreen.toDate (field (js "timestamp") (Doc.data doc)) = Some ts ->
  ChatScreen.visit toLocaleTimeString cu (Some acc) doc
  = Some (acc ++ [message_from toLocaleTimeString cu doc ts]).
Proof. intros H. unfold ChatScreen.visit. rewrite H. reflexivity. Qed.

(** The list that is built has one entry per document of the snapshot, in
    the snapshot's order and under the document's id. *)
Lemma visit_ids (qs : QuerySnapshot) (acc msgs : list Message.t) :
  fold_left (ChatScreen.visit toLocaleTimeString cu) qs (Some acc) = Some msgs ->
  List.map Message.id msgs = List.map Message.id acc ++ List.map Doc.id qs.
Proof.
  revert acc. induction qs as [|doc qs IH]; intros acc; simpl.
  - intros H. injection H as <-. now rewrite app_nil_r.
  - destruct (ChatScreen.toDate (field (js "timestamp") (Doc.data doc))) as [ts|].
    + intros H. apply IH in H. rewrite H, map_app, <- app_assoc. reflexivity.
    + rewrite visit_thrown. discriminate.
Qed.

(** On readable documents the loop does not throw, and builds the entries
    of the documents in order. *)
Lemma visit_shown (qs : QuerySnapshot) (acc : list Message.t) :
  dated qs ->
  fold_left (ChatScreen.visit toLocaleTimeString cu) qs (Some acc)
  = Some (acc ++ List.map (shown_as toLocaleTimeString cu) qs).
Proof.
  intros H. revert acc. induction H as [|doc qs Hdoc _ IH]; intros acc.
  - simpl. now rewrite app_nil_r.
  - cbn [fold_left List.map].
    destruct (ChatScreen.toDate (field (js "timestamp") (Doc.data doc))) as [ts|] eqn:E;
      [|congruence].
    rewrite (visit_step acc doc E), IH, <- app_assoc.
    unfold shown_as at 2, date_of. rewrite E. reflexivity.
Qed.

Lemma visit_dated (qs : QuerySnapshot) (acc : list Message.t) :
  dated qs ->
  exists msgs, fold_left (ChatScreen.visit toLocaleTimeString cu) qs (Some acc) = Some msgs.
Proof. intros H. rewrite (visit_shown acc H). eauto. Qed.

Lemma visit_built (qs : QuerySnapshot) (acc msgs : list Message.t) :
  fold_left (ChatScreen.visit toLocaleTimeString cu) qs (Some acc) = Some msgs ->
  List.length msgs = List.length acc + List.length qs
  /\ (forall m, In m acc -> In m msgs)
  /\ (forall doc ts, In doc qs ->
        ChatScreen.toDate (field (js "timestamp") (Doc.data doc)) = Some ts ->
        In (message_from toLocaleTimeString cu doc ts) msgs).
Proof.
  revert acc. induction qs as [|d qs IH]; intros acc H.
  - simpl in H. injection H as <-. simpl. repeat split; auto; try lia.
    all: try (intros doc ts []).
  - cbn [fold_left] in H.
    destruct (ChatScreen.toDate (field (js "timestamp") (Doc.data d))) as [ts0|] eqn:E.
    + rewrite (visit_step acc d E) in H.
      destruct (IH _ H) as (Hlen & Hacc & Hdocs).
      split; [|split].
      * rewrite Hlen, length_app. simpl. lia.
      * intros m Hm. apply Hacc. apply in_or_app. now left.
      * intros doc ts [<- | Hin] Hts.
        -- rewrite E in Hts. injection Hts as <-.
           apply Hacc. apply in_or_app. right. now left.
        -- now apply Hdocs.
    + unfold ChatScreen.visit in H at 2. rewrite E in H.
      rewrite visit_thrown in H. discriminate.
Qed.

Lemma onMessagesSnapshot_ids (qs : QuerySnapshot) (st st' : ChatScreen.State) out :
  ChatScreen.onMessagesSnapshot toLocaleTimeString cu qs st = Some (st', out) ->
  List.map Message.id (ChatScreen.messages st') = List.map Doc.id qs.
Proof.
  unfold ChatScreen.onMessagesSnapshot.
  destruct (fold_left _ qs (Some [])) as [msgs|] eqn:E; [|discriminate].
  intros H. injection H as <- _. simpl. now apply visit_ids in E.
Qed.

Lemma onMessagesSnapshot_shown (qs : QuerySnapshot) (st : ChatScreen.State) :
  dated qs ->
  ChatScreen.onMessagesSnapshot toLocaleTimeString cu qs st
  = Some (ChatScreen.setLoading false
            (ChatScreen.setMessages (List.map (shown_as toLocaleTimeString cu) qs) st),
          [ScrollToEnd]).
Proof.
  intros H. unfold ChatScreen.onMessagesSnapshot. now rewrite (visit_shown [] H).
Qed.

Lemma onMessagesSnapshot_dated (qs : QuerySnapshot) (st : ChatScreen.State) :
  dated qs ->
  exists msgs,
    fold_left (ChatScreen.visit toLocaleTimeString cu) qs (Some []) = Some msgs
    /\ ChatScreen.onMessagesSnapshot toLocaleTimeString cu qs st
       = Some (ChatScreen.setLoading false (ChatScreen.setMessages msgs st),
               [ScrollToEnd]).
Proof.
  intros H. destruct (visit_dated [] H) as (msgs & E). exists msgs.
  split; auto. unfold ChatScreen.onMessagesSnapshot. now rewrite E.
Qed.

(** A listener call leaves the input box alone. *)
Lemma step_input (c : ChatScreen.State * list Effect) (e : ChatScreen.Event) :
  ChatScreen.input (fst (ChatScreen.step toLocaleTimeString cu c e))
  = ChatScreen.input (fst c).
Proof.
  destruct e as [qs|]; simpl; auto.
  unfold ChatScreen.onMessagesSnapshot.
  destruct (fold_left _ qs (Some [])); reflexivity.
Qed.


(** A snapshot with an unreadable document changes nothing. *)
Lemma visit_throws (qs : QuerySnapshot) (acc : option (list Message.t))
    (doc : QueryDocumentSnapshot) :
  In doc qs ->
  ChatScreen.toDate (field (js "timestamp") (Doc.data doc)) = None ->
  fold_left (ChatScreen.visit toLocaleTimeString cu) qs acc = None.
Proof.
  revert acc. induction qs as [|d qs IH]; intros acc Hin Hts; [destruct Hin|].
  destruct Hin as [-> | Hin]; simpl.
  - destruct acc as [l|]; simpl; [rewrite Hts|]; apply visit_thrown.
  - now apply IH.
Qed.
End MessagesListener.

Lemma In_insert_at_new {A : Type} (n : nat) (x : A) (l : list A) :
  In x (insert_at n x l).
Proof. unfold insert_at. apply in_or_app. right. now left. Qed.

Lemma length_insert_at {A : Type} (n : nat) (x : A) (l : list A) :
  List.length (insert_at n x l) = S (List.length l).
Proof.
  unfold insert_at. rewrite length_app. simpl.
  rewrite <- (firstn_skipn n l) at 3. rewrite length_app. lia.
Qed.


Lemma dated_insert_at (n : nat) (d : QueryDocumentSnapshot) (qs : QuerySnapshot) :
  ChatScreen.toDate (field (js "timestamp") (Doc.data d)) <> None ->
  dated qs -> dated (insert_at n d qs).
Proof.
  unfold dated, insert_at. intros Hd Hqs.
  rewrite <- (firstn_skipn n qs) in Hqs. apply Forall_app in Hqs as [H1 H2].
  apply Forall_app. split; auto.
Qed.


(** ** Sample threads *)

Definition message_doc (i body sender : JSString) (stamp : Value) : QueryDocumentSnapshot :=
  Doc.mk i [(js "text", VString body); (js "userId", VString sender);
            (js "userName", VString (js "Una")); (js "timestamp", stamp)].

Definition thread_S1 : QuerySnapshot :=
  [message_doc (js "m1") (js "hi") (js "U1") (VTimestamp 5);
   message_doc (js "m2") (js "yo") (js "U2") (VTimestamp 6)].

Definition thread_S2 : QuerySnapshot :=
  [message_doc (js "m2") (js "yo") (js "U2") (VTimestamp 6);
   message_doc (js "m3") (js "ok") (js "U1") VNull].

(** A snapshot with a document whose [timestamp] is a string. *)
Definition thread_unreadable : QuerySnapshot :=
  [message_doc (js "m1") (js "hi") (js "U1") (VTimestamp 5);
   message_doc (js "m9") (js "??") (js "U2") (VString (js "yesterday"))].

(** A store whose room holds the readable thread, and one whose room holds
    the unreadable one. *)
Definition db_thread : Firestore := [(messagesPath app ChatScreen.room, thread_S1)].

(** U1 has the thread [thread_S1] on screen and has typed [body]. *)
Definition replying (body : JSString) : ChatScreen.State :=
  ChatScreen.mkState (List.map (shown_as plainTime userU1) thread_S1) body
    (Some userU1) false.

(** ** A sent message on the sender's screen *)


Lemma stored_outgoing_date (st : ChatScreen.State) (cu : Auth.User) (srv : Server) :
  ChatScreen.toDate
    (field (js "timestamp") (Doc.data (stored srv (ChatScreen.outgoing st cu))))
  = Some (Some (now srv)).
Proof. reflexivity. Qed.

Lemma outgoing_is_mine (toLocaleTimeString : Z -> JSString)
    (st : ChatScreen.State) (cu : Auth.User) (srv : Server) :
  Message.sender (shown_as toLocaleTimeString cu (local srv (ChatScreen.outgoing st cu)))
  = Message.me
  /\ Message.sender
       (shown_as toLocaleTimeString cu (stored srv (ChatScreen.outgoing st cu)))
     = Message.me.
Proof.
  unfold shown_as, message_from. cbn [Message.sender].
  change (field (js "userId") (Doc.data (local srv (ChatScreen.outgoing st cu))))
    with (VString (Auth.uid cu)).
  change (field (js "userId") (Doc.data (stored srv (ChatScreen.outgoing st cu))))
    with (VString (Auth.uid cu)).
  now rewrite value_eqb_string.
Qed.



Example sent_message_on_screen :
  let st := replying (js "ok ") in
  let pending := fst (ChatScreen.whilePending app plainTime st srvA db_thread) in
  let r := ChatScreen.sendMessage app plainTime st srvA db_thread in
  List.map (fun m => (Message.id m, Message.timestamp m)) (ChatScreen.messages pending)
  = [(js "m1", Some 5%Z); (js "m2", Some 6%Z); (js "n1", None)]
  /\ List.map (fun m => (Message.id m, Message.timestamp m))
       (ChatScreen.messages (res_state r))
     = [(js "n1", Some 100%Z); (js "m1", Some 5%Z); (js "m2", Some 6%Z)].
Proof. vm_compute. split; reflexivity. Qed.


(** ** The conversation list and its listener *)

(** [!data.lastMessageTimestamp] is false. *)
Definition has_timestamp (d : QueryDocumentSnapshot) : bool :=
  truthy (field (js "lastMessageTimestamp") (Doc.data d)).

(** The entry pushed for a document that has a timestamp. *)
Definition chat_of (d : QueryDocumentSnapshot) : Chat.t :=
  Chat.mk (Doc.id d)
    (or_else (field (js "chatName") (Doc.data d)) (VString (js "Unnamed Chat")))
    (or_else (field (js "lastMessageText") (Doc.data d)) (VString empty))
    (field (js "lastMessageTimestamp") (Doc.data d)).

Definition is_warning (e : Effect) : Prop :=
  match e with ConsoleWarn _ => True | _ => False end.

Lemma visit_chats (qs : QuerySnapshot) (acc : list Chat.t * list Effect) :
  fst (fold_left ChatList.visit qs acc)
  = fst acc ++ List.map chat_of (filter has_timestamp qs).
Proof.
  revert acc. induction qs as [|d qs IH]; intros acc; simpl.
  - now rewrite app_nil_r.
  - rewrite IH. unfold ChatList.visit. fold (has_timestamp d).
    destruct (has_timestamp d); simpl; auto.
    now rewrite <- app_assoc.
Qed.

Lemma visit_warnings (qs : QuerySnapshot) (acc : list Chat.t * list Effect) :
  Forall is_warning (snd acc) ->
  Forall is_warning (snd (fold_left ChatList.visit qs acc)).
Proof.
  revert acc. induction qs as [|d qs IH]; intros acc Hacc; simpl; auto.
  apply IH. unfold ChatList.visit.
  destruct (negb _); simpl; auto.
  apply Forall_app. split; auto. repeat constructor.
Qed.

Lemma onChatsSnapshot_chats cacheFails (qs : QuerySnapshot) (st : ChatList.State) :
  ChatList.chats (fst (ChatList.onChatsSnapshot cacheFails qs st))
  = List.map chat_of (filter has_timestamp qs).
Proof.
  unfold ChatList.onChatsSnapshot.
  pose proof (visit_chats qs ([], [])) as H.
  destruct (fold_left ChatList.visit qs ([], [])) as [chatList warnings].
  simpl in *. exact H.
Qed.

(** What the callback emits: warnings for the skipped documents, then the
    write of the new list to the cache, then a warning if that write fails. *)
Lemma onChatsSnapshot_effects cacheFails (qs : QuerySnapshot) (st : ChatList.State) :
  exists warnings,
    Forall is_warning warnings
    /\ snd (ChatList.onChatsSnapshot cacheFails qs st)
       = warnings
         ++ [SetItem ChatList.STORAGE_KEY (List.map chat_of (filter has_timestamp qs))]
         ++ (if cacheFails then [ConsoleWarn (js "Failed to cache chats:")] else []).
Proof.
  unfold ChatList.onChatsSnapshot.
  pose proof (visit_chats qs ([], [])) as Hc.
  pose proof (@visit_warnings qs ([], []) (Forall_nil _)) as Hw.
  destruct (fold_left ChatList.visit qs ([], [])) as [chatList warnings].
  simpl in *. subst chatList. exists warnings. split; auto.
Qed.

Lemma NoDup_map_inj {A B : Type} (f : A -> B) (l : list A) (x y : A) :
  NoDup (List.map f l) -> In x l -> In y l -> f x = f y -> x = y.
Proof.
  induction l as [|a l IH]; simpl; [tauto|].
  intros Hnd Hx Hy Hf. inversion Hnd as [|? ? Hnotin Hnd']; subst.
  destruct Hx as [-> | Hx], Hy as [-> | Hy]; auto.
  - exfalso. apply Hnotin. rewrite Hf. now apply in_map.
  - exfalso. apply Hnotin. rewrite <- Hf. now apply in_map.
Qed.

(** C9.  A document of a pushed chats snapshot whose [lastMessageTimestamp]
    is absent gets no entry in the exposed conversation list nor in the copy
    written to the cache; the documents that have a timestamp are listed
    with their own values, no fallback timestamp is made up, and the
    callback reports no error (it logs a console warning and goes on). *)
Theorem chat_without_timestamp_is_skipped
    (cacheFails : bool) (qs : QuerySnapshot) (st : ChatList.State)
    (d : QueryDocumentSnapshot)
    (Hin : In d qs)
    (Habsent : field (js "lastMessageTimestamp") (Doc.data d) = VUndefined)
    (Hids : NoDup (List.map Doc.id qs)) :
  let r := ChatList.onChatsSnapshot cacheFails qs st in
  (forall c, In c (ChatList.chats (fst r)) -> Chat.id c <> Doc.id d)
  /\ (forall key cached c,
        In (SetItem key cached) (snd r) -> In c cached -> Chat.id c <> Doc.id d)
  /\ (forall msg, ~ In (ConsoleError msg) (snd r))
  /\ ChatList.chats (fst r) = List.map chat_of (filter has_timestamp qs).
Proof.
  intros r. subst r.
  assert (Hskip : forall c, In c (List.map chat_of (filter has_timestamp qs)) ->
                            Chat.id c <> Doc.id d).
  { intros c Hc Heq. apply in_map_iff in Hc as (d' & <- & Hd').
    apply filter_In in Hd' as [Hd' Hts]. simpl in Heq.
    assert (d' = d) by (eapply NoDup_map_inj; eauto). subst d'.
    unfold has_timestamp in Hts. rewrite Habsent in Hts. discriminate. }
  destruct (onChatsSnapshot_effects cacheFails qs st) as (warnings & Hw & ->).
  rewrite onChatsSnapshot_chats.
  rewrite Forall_forall in Hw.
  split; [exact Hskip|]. split; [|split; [|reflexivity]].
  - intros key cached c Hset Hc.
    apply in_app_or in Hset as [Hset | Hset]; [apply Hw in Hset; contradiction|].
    apply in_app_or in Hset as [Hset | Hset].
    + destruct Hset as [Hset | []]. injection Hset as _ <-. now apply Hskip.
    + destruct cacheFails; simpl in Hset; [destruct Hset as [Hset | []]|];
        try discriminate; contradiction.
  - intros msg Herr.
    apply in_app_or in Herr as [Herr | Herr]; [apply Hw in Herr; contradiction|].
    apply in_app_or in Herr as [Herr | Herr].
    + destruct Herr as [Herr | []]. discriminate.
    + destruct cacheFails; simpl in Herr; [destruct Herr as [Herr | []]|];
        try discriminate; contradiction.
Qed.

Definition chats_snapshot : QuerySnapshot :=
  [chat_doc (js "c1") [js "U1"; js "U2"] (VTimestamp 10);
   Doc.mk (js "c2") [(js "members", string_array [js "U1"; js "U3"]);
                     (js "chatName", VString (js "Una & Tri"))];
   chat_doc (js "c3") [js "U1"; js "U4"] (VTimestamp 7)].

Lemma chat_without_timestamp_is_skipped_witness :
  let d := Doc.mk (js "c2") [(js "members", string_array [js "U1"; js "U3"]);
                            (js "chatName", VString (js "Una & Tri"))] in
  let r := ChatList.onChatsSnapshot false chats_snapshot ChatList.initialState in
  (forall c, In c (ChatList.chats (fst r)) -> Chat.id c <> Doc.id d)
  /\ (forall key cached c,
        In (SetItem key cached) (snd r) -> In c cached -> Chat.id c <> Doc.id d)
  /\ (forall msg, ~ In (ConsoleError msg) (snd r))
  /\ ChatList.chats (fst r) = List.map chat_of (filter has_timestamp chats_snapshot).
Proof.
  apply (@chat_without_timestamp_is_skipped false chats_snapshot ChatList.initialState).
  - right. left. reflexivity.
  - reflexivity.
  - vm_compute. repeat constructor; simpl; intuition discriminate.
Defined.

Example chats_snapshot_listed :
  List.map Chat.id
    (ChatList.chats (fst (ChatList.onChatsSnapshot false chats_snapshot
                            ChatList.initialState)))
  = [js "c1"; js "c3"].
Proof. reflexivity. Qed.

(** ** Snapshots replace, errors keep *)

Lemma chatlist_run_app (es1 es2 : list ChatList.Event) (st : ChatList.State) :
  ChatList.run (es1 ++ es2) st = fold_left ChatList.step es2 (ChatList.run es1 st).
Proof. unfold ChatList.run. apply fold_left_app. Qed.

Lemma chatlist_step_snapshot cacheFails qs (c : ChatList.State * list Effect) :
  ChatList.chats (fst (ChatList.step c (ChatList.Snapshot cacheFails qs)))
  = List.map chat_of (filter has_timestamp qs).
Proof.
  unfold ChatList.step.
  pose proof (onChatsSnapshot_chats cacheFails qs (fst c)) as H.
  destruct (ChatList.onChatsSnapshot cacheFails qs (fst c)) as [st' out].
  exact H.
Qed.

Lemma chatlist_errors_keep_chats (n : nat) (c : ChatList.State * list Effect) :
  ChatList.chats (fst (fold_left ChatList.step (repeat ChatList.SnapshotError n) c))
  = ChatList.chats (fst c).
Proof.
  revert c. induction n as [|n IH]; intros c; simpl; auto.
  now rewrite IH.
Qed.

Section ThreadRuns.
Variable toLocaleTimeString : Z -> JSString.
Variable cu : Auth.User.

Lemma thread_run_app (es1 es2 : list ChatScreen.Event) (st : ChatScreen.State) :
  ChatScreen.run toLocaleTimeString cu (es1 ++ es2) st
  = fold_left (ChatScreen.step toLocaleTimeString cu) es2
      (ChatScreen.run toLocaleTimeString cu es1 st).
Proof. unfold ChatScreen.run. apply fold_left_app. Qed.

Lemma thread_step_snapshot qs (c : ChatScreen.State * list Effect) :
  dated qs ->
  exists msgs,
    fold_left (ChatScreen.visit toLocaleTimeString cu) qs (Some []) = Some msgs
    /\ ChatScreen.messages
         (fst (ChatScreen.step toLocaleTimeString cu c (ChatScreen.Snapshot qs)))
       = msgs.
Proof.
  intros Hd.
  destruct (onMessagesSnapshot_dated toLocaleTimeString cu (fst c) Hd) as (msgs & E & Hs).
  exists msgs. split; auto. unfold ChatScreen.step. now rewrite Hs.
Qed.

(** A snapshot with a document the callback cannot read is a call that
    throws: the state cells and the effects are as before. *)
Lemma thread_step_unreadable qs doc (c : ChatScreen.State * list Effect) :
  In doc qs ->
  ChatScreen.toDate (field (js "timestamp") (Doc.data doc)) = None ->
  ChatScreen.step toLocaleTimeString cu c (ChatScreen.Snapshot qs) = c.
Proof.
  intros Hin Hts. unfold ChatScreen.step, ChatScreen.onMessagesSnapshot.
  now rewrite (@visit_throws toLocaleTimeString cu qs (Some []) doc Hin Hts).
Qed.

Lemma thread_errors_keep_messages (n : nat) (c : ChatScreen.State * list Effect) :
  ChatScreen.messages
    (fst (fold_left (ChatScreen.step toLocaleTimeString cu)
            (repeat ChatScreen.SnapshotError n) c))
  = ChatScreen.messages (fst c).
Proof.
  revert c. induction n as [|n IH]; intros c; simpl; auto.
  now rewrite IH.
Qed.
End ThreadRuns.

(** C2, as the code has it.  When a listener has been handed a snapshot
    and then a second one that it can read, the exposed list is the one
    built from the second alone: it is the same whatever the state was
    before (so nothing of the first is merged in), and every entry carries
    the id of a document of the second.  The conversation list reads every
    snapshot (S1, S2), and its callback also writes that very list to the
    cache.  The message list reads a snapshot M2 whose documents each carry
    a Timestamp, [null] or nothing in [timestamp]; on any other M2 the
    callback throws, and state and effects are as the call for M1 left
    them: the list built from M1 stays. *)
Theorem snapshot_replaces_list
    (toLocaleTimeString : Z -> JSString) (cu : Auth.User)
    (S1 S2 M1 M2 : QuerySnapshot) (fails1 fails2 : bool)
    (st st' : ChatList.State) (ms ms' : ChatScreen.State)
    (Hdated : dated M2) :
  let after :=
    ChatList.run [ChatList.Snapshot fails1 S1; ChatList.Snapshot fails2 S2] st in
  let alone := ChatList.run [ChatList.Snapshot fails2 S2] st' in
  let thread :=
    ChatScreen.run toLocaleTimeString cu
      [ChatScreen.Snapshot M1; ChatScreen.Snapshot M2] ms in
  let thread_alone :=
    ChatScreen.run toLocaleTimeString cu [ChatScreen.Snapshot M2] ms' in
  (ChatList.chats (fst after) = ChatList.chats (fst alone)
   /\ (forall c, In c (ChatList.chats (fst after)) ->
                 exists d, In d S2 /\ Doc.id d = Chat.id c)
   /\ In (SetItem ChatList.STORAGE_KEY (ChatList.chats (fst after))) (snd after))
  /\
  (ChatScreen.messages (fst thread) = ChatScreen.messages (fst thread_alone)
   /\ List.map Message.id (ChatScreen.messages (fst thread)) = List.map Doc.id M2
   /\ (forall (M : QuerySnapshot) (doc : QueryDocumentSnapshot),
         In doc M ->
         ChatScreen.toDate (field (js "timestamp") (Doc.data doc)) = None ->
         ChatScreen.run toLocaleTimeString cu
           [ChatScreen.Snapshot M1; ChatScreen.Snapshot M] ms
         = ChatScreen.run toLocaleTimeString cu [ChatScreen.Snapshot M1] ms)).
Proof.
  intros after alone thread thread_alone. split.
  - subst after alone. unfold ChatList.run. cbn [fold_left].
    rewrite !chatlist_step_snapshot. split; [reflexivity|]. split.
    + intros c Hc. apply in_map_iff in Hc as (d & <- & Hd).
      apply filter_In in Hd as [Hd _]. exists d. split; auto.
    + unfold ChatList.step at 1.
      destruct (onChatsSnapshot_effects fails2 S2
                  (fst (ChatList.step (st, []) (ChatList.Snapshot fails1 S1))))
        as (warnings & _ & Heff).
      destruct (ChatList.onChatsSnapshot fails2 S2 _) as [st2 out].
      simpl in Heff. subst out. cbn [snd].
      apply in_or_app. right. apply in_or_app. right.
      left. reflexivity.
  - subst thread thread_alone. unfold ChatScreen.run. cbn [fold_left].
    destruct (thread_step_snapshot toLocaleTimeString cu
                (ChatScreen.step toLocaleTimeString cu (ms, []) (ChatScreen.Snapshot M1))
                Hdated) as (msgs & E & ->).
    destruct (thread_step_snapshot toLocaleTimeString cu (ms', []) Hdated)
      as (msgs' & E' & ->).
    split; [congruence|]. split; [now apply visit_ids in E|].
    intros M doc Hin Hts. cbn [fold_left].
    now rewrite (@thread_step_unreadable toLocaleTimeString cu M doc _ Hin Hts).
Qed.


Lemma snapshot_replaces_list_witness :
  let after :=
    ChatList.run [ChatList.Snapshot false chats_snapshot;
                  ChatList.Snapshot false (firstn 1 chats_snapshot)]
      ChatList.initialState in
  let alone :=
    ChatList.run [ChatList.Snapshot false (firstn 1 chats_snapshot)]
      ChatList.initialState in
  let thread :=
    ChatScreen.run plainTime userU1
      [ChatScreen.Snapshot thread_S1; ChatScreen.Snapshot thread_S2] inThreadU1 in
  let thread_alone :=
    ChatScreen.run plainTime userU1 [ChatScreen.Snapshot thread_S2] inThreadU1 in
  (ChatList.chats (fst after) = ChatList.chats (fst alone)
   /\ (forall c, In c (ChatList.chats (fst after)) ->
                 exists d, In d (firstn 1 chats_snapshot) /\ Doc.id d = Chat.id c)
   /\ In (SetItem ChatList.STORAGE_KEY (ChatList.chats (fst after))) (snd after))
  /\
  (ChatScreen.messages (fst thread) = ChatScreen.messages (fst thread_alone)
   /\ List.map Message.id (ChatScreen.messages (fst thread))
      = List.map Doc.id thread_S2
   /\ (forall (M : QuerySnapshot) (doc : QueryDocumentSnapshot),
         In doc M ->
         ChatScreen.toDate (field (js "timestamp") (Doc.data doc)) = None ->
         ChatScreen.run plainTime userU1
           [ChatScreen.Snapshot thread_S1; ChatScreen.Snapshot M] inThreadU1
         = ChatScreen.run plainTime userU1 [ChatScreen.Snapshot thread_S1] inThreadU1)).
Proof.
  apply (@snapshot_replaces_list plainTime userU1 chats_snapshot
           (firstn 1 chats_snapshot) thread_S1 thread_S2 false false
           ChatList.initialState ChatList.initialState inThreadU1 inThreadU1).
  repeat constructor; vm_compute; discriminate.
Defined.

(** U1's thread is handed [thread_S1] and then [thread_unreadable], in
    which m2 is gone and m9 has a string for [timestamp]: the callback
    throws on m9, and the exposed list is still the one of [thread_S1],
    with the entry m2 that only the first snapshot held. *)
Lemma stale_entry_after_unreadable_snapshot :
  let thread :=
    ChatScreen.run plainTime userU1
      [ChatScreen.Snapshot thread_S1; ChatScreen.Snapshot thread_unreadable]
      inThreadU1 in
  List.map Message.id (ChatScreen.messages (fst thread)) = [js "m1"; js "m2"]
  /\ List.map Doc.id thread_S1 = [js "m1"; js "m2"]
  /\ List.map Doc.id thread_unreadable = [js "m1"; js "m9"]
  /\ List.map Message.id (ChatScreen.messages (fst thread))
     <> List.map Doc.id thread_unreadable.
Proof. vm_compute. repeat split. discriminate. Qed.

Example thread_after_S2 :
  List.map Message.id
    (ChatScreen.messages
       (fst (ChatScreen.run plainTime userU1
               [ChatScreen.Snapshot thread_S1; ChatScreen.Snapshot thread_S2]
               inThreadU1)))
  = [js "m2"; js "m3"].
Proof. reflexivity. Qed.

(** C8.  The error callback of either listener leaves the exposed list as
    it is and only reports: it logs the error and ends the loading
    indicator, so the list is on screen.  Hence after any run of listener calls, further
    error events, however many, leave the conversation list and the
    message list exactly as the run had left them: the last good snapshot
    stays on screen. *)
Theorem error_keeps_last_snapshot
    (toLocaleTimeString : Z -> JSString) (cu : Auth.User)
    (events : list ChatList.Event) (thread_events : list ChatScreen.Event)
    (n : nat) (st : ChatList.State) (ms : ChatScreen.State) :
  (ChatList.chats (fst (ChatList.onChatsError st)) = ChatList.chats st
   /\ ChatList.loading (fst (ChatList.onChatsError st)) = false
   /\ snd (ChatList.onChatsError st) = [ConsoleError (js "Error fetching chat list:")]
   /\ ChatList.chats
        (fst (ChatList.run (events ++ repeat ChatList.SnapshotError n) st))
      = ChatList.chats (fst (ChatList.run events st)))
  /\
  (ChatScreen.messages (fst (ChatScreen.onMessagesError ms)) = ChatScreen.messages ms
   /\ ChatScreen.loading (fst (ChatScreen.onMessagesError ms)) = false
   /\ snd (ChatScreen.onMessagesError ms) = [ConsoleError (js "Error fetching messages: ")]
   /\ ChatScreen.messages
        (fst (ChatScreen.run toLocaleTimeString cu
                (thread_events ++ repeat ChatScreen.SnapshotError n) ms))
      = ChatScreen.messages
          (fst (ChatScreen.run toLocaleTimeString cu thread_events ms))).
Proof.
  split; (split; [reflexivity|split; [reflexivity|split; [reflexivity|]]]).
  - rewrite chatlist_run_app. apply chatlist_errors_keep_chats.
  - rewrite thread_run_app. apply thread_errors_keep_messages.
Qed.

Example chats_survive_errors :
  List.map Chat.id
    (ChatList.chats
       (fst (ChatList.run [ChatList.Snapshot false chats_snapshot;
                           ChatList.SnapshotError; ChatList.SnapshotError]
               ChatList.initialState)))
  = [js "c1"; js "c3"].
Proof. reflexivity. Qed.

(** * Further properties of the screens *)

(** ** The member pair and the joined key *)

Lemma members_cases (cu : Auth.User) (otherUser : AppUser.t) :
  exists x y,
    AllUsers.members cu otherUser = [x; y]
    /\ ((x = Auth.uid cu /\ y = AppUser.uid otherUser)
        \/ (x = AppUser.uid otherUser /\ y = Auth.uid cu))
    /\ str_ltb y x = false.
Proof.
  unfold AllUsers.members. simpl.
  destruct (str_ltb (AppUser.uid otherUser) (Auth.uid cu)) eqn:E.
  - exists (AppUser.uid otherUser), (Auth.uid cu). repeat split; auto.
    now apply str_ltb_asym.
  - exists (Auth.uid cu), (AppUser.uid otherUser). repeat split; auto.
Qed.

(** X1.  The [members] array that [handleCreateChat] computes holds exactly
    the two participants' ids, the smaller one (in code-unit order) first;
    both revisions compute the same array. *)
Theorem members_sorted_pair (cu : Auth.User) (otherUser : AppUser.t) :
  let a := Auth.uid cu in
  let b := AppUser.uid otherUser in
  AllUsers2.members cu otherUser = AllUsers.members cu otherUser
  /\ exists x y,
       AllUsers.members cu otherUser = [x; y]
       /\ ((x = a /\ y = b) \/ (x = b /\ y = a))
       /\ str_ltb y x = false.
Proof.
  intros a b. split; [reflexivity|]. subst a b. apply members_cases.
Qed.

(** The code unit of the separator ['_']. *)
Definition underscore : N := 95.

Definition no_underscore (s : JSString) : Prop := ~ In underscore s.

Lemma split_at_separator (c : N) (a a' b b' : JSString) :
  ~ In c a -> ~ In c a' -> a ++ c :: b = a' ++ c :: b' -> a = a' /\ b = b'.
Proof.
  revert a'. induction a as [|x a IH]; intros [|x' a'] Ha Ha' H; simpl in *.
  - injection H as ->. auto.
  - injection H as <- _. tauto.
  - injection H as -> _. tauto.
  - injection H as -> H.
    destruct (IH a') as [-> ->]; auto.
Qed.

Lemma chatId_shape (cu : Auth.User) (otherUser : AppUser.t) x y :
  AllUsers.members cu otherUser = [x; y] ->
  AllUsers.chatId cu otherUser = x ++ underscore :: y.
Proof. intros H. unfold AllUsers.chatId. rewrite H. reflexivity. Qed.

(** X2.  [chatId], the member pair joined with ['_'], determines the pair
    whenever the ids contain no underscore: two pairs with the same
    [chatId] have the same [members]. *)
Theorem chatId_determines_members
    (cu cu' : Auth.User) (otherUser otherUser' : AppUser.t)
    (Ha : no_underscore (Auth.uid cu))
    (Hb : no_underscore (AppUser.uid otherUser))
    (Hc : no_underscore (Auth.uid cu'))
    (Hd : no_underscore (AppUser.uid otherUser'))
    (Hkey : AllUsers.chatId cu otherUser = AllUsers.chatId cu' otherUser') :
  AllUsers.members cu otherUser = AllUsers.members cu' otherUser'.
Proof.
  destruct (members_cases cu otherUser) as (x & y & Hm & Hxy & _).
  destruct (members_cases cu' otherUser') as (x' & y' & Hm' & Hxy' & _).
  rewrite (chatId_shape _ _ Hm), (chatId_shape _ _ Hm') in Hkey.
  rewrite Hm, Hm'.
  assert (Hx : no_underscore x) by (destruct Hxy as [[-> _] | [-> _]]; assumption).
  assert (Hx' : no_underscore x') by (destruct Hxy' as [[-> _] | [-> _]]; assumption).
  destruct (@split_at_separator underscore x x' y y' Hx Hx' Hkey) as [-> ->]. reflexivity.
Qed.

Lemma chatId_determines_members_witness :
  AllUsers.members userU1 entryU2 = AllUsers.members userU2 entryU1.
Proof.
  apply (@chatId_determines_members userU1 userU2 entryU2 entryU1).
  - vm_compute. intuition discriminate.
  - vm_compute. intuition discriminate.
  - vm_compute. intuition discriminate.
  - vm_compute. intuition discriminate.
  - reflexivity.
Defined.

(** With underscores in the ids the key is ambiguous. *)
Example chatId_collision :
  AllUsers.chatId (Auth.mkUser (js "a_b") None) (AppUser.mk (js "c") VNull VNull)
  = AllUsers.chatId (Auth.mkUser (js "a") None) (AppUser.mk (js "b_c") VNull VNull).
Proof. reflexivity. Qed.

(** ** Get-or-create from either side, and across the two revisions *)

Lemma records_swap (appId a b : JSString) (nameA nameB : option JSString)
    (dirA dirB photoA photoB : Value) (db : Firestore) :
  records appId (Auth.mkUser b nameB) (AppUser.mk a dirA photoA) db
  = records appId (Auth.mkUser a nameA) (AppUser.mk b dirB photoB) db.
Proof.
  unfold records, AllUsers.members. simpl Auth.uid. simpl AppUser.uid.
  now rewrite (sort_pair_comm b a).
Qed.

Lemma records2_swap (appId a b : JSString) (nameA nameB : option JSString)
    (dirA dirB photoA photoB : Value) (db : Firestore) :
  records2 appId (Auth.mkUser b nameB) (AppUser.mk a dirA photoA) db
  = records2 appId (Auth.mkUser a nameA) (AppUser.mk b dirB photoB) db.
Proof.
  unfold records2. apply filter_ext. intros d.
  unfold AllUsers2.is_chat_of. simpl Auth.uid. simpl AppUser.uid.
  rewrite <- !andb_assoc. f_equal. apply andb_comm.
Qed.

(** part_002 opens the last record its loop accepts. *)
Lemma handleCreateChat2_opens_last (appId : JSString) (st : AllUsers2.State)
    cu otherUser (srv srvMsg : Server) (db : Firestore) (i : JSString) :
  AllUsers2.currentUser st = Some cu ->
  i <> [] ->
  last (List.map (fun d => Some (Doc.id d)) (records2 appId cu otherUser db)) None
  = Some i ->
  AllUsers2.handleCreateChat appId st otherUser true srv srvMsg db
  = mkResult db st
      [ConsoleLog (js "Existing chat found:"); RouterPush (chat_url i)] Fulfilled.
Proof.
  intros signed_in Hne Hlast.
  pose proof (existing_getDocs appId cu otherUser db) as Hex.
  unfold AllUsers2.handleCreateChat. rewrite signed_in.
  destruct (getDocs true db (AllUsers2.lookup appId cu)) as [qs|]; [|discriminate].
  simpl in Hex. injection Hex as Hex. rewrite Hex, Hlast.
  destruct i as [|c s]; [congruence|]. reflexivity.
Qed.

Lemma last_record2_id (appId : JSString) cu otherUser (db : Firestore) x xs :
  ids_nonempty (collection db (chatsPath appId)) ->
  records2 appId cu otherUser db = x :: xs ->
  exists d,
    In d (records2 appId cu otherUser db)
    /\ Doc.id d <> []
    /\ last (List.map (fun d => Some (Doc.id d)) (records2 appId cu otherUser db)) None
       = Some (Doc.id d).
Proof.
  intros Hids Hrec.
  destruct (last_some_in Doc.id Hrec) as (d & Hin & Hlast).
  exists d. repeat split; auto.
  unfold ids_nonempty in Hids. rewrite Forall_forall in Hids.
  apply Hids. unfold records2 in Hin. apply filter_In in Hin. tauto.
Qed.

(** X3.  Get-or-create from both ends.  When participant [a] starts a
    conversation with [b] and then [b] starts one with [a] (no other writer
    in between), and the store answers both lookups and accepts what the
    first call writes, [b] is taken to the conversation [a] was taken to,
    and a record is added only if none was stored before.  This holds on
    both revisions of the screen (document ids being non-empty). *)
Theorem get_or_create_from_either_side
    (appId a b : JSString) (nameA nameB : option JSString)
    (dirA dirB photoA photoB : Value)
    (stA stB : AllUsers.State) (stA2 stB2 : AllUsers2.State)
    (srv1 srv2 msg1 msg2 : Server) (db : Firestore)
    (HA : AllUsers.currentUser stA = Some (Auth.mkUser a nameA))
    (HB : AllUsers.currentUser stB = Some (Auth.mkUser b nameB))
    (HA2 : AllUsers2.currentUser stA2 = Some (Auth.mkUser a nameA))
    (HB2 : AllUsers2.currentUser stB2 = Some (Auth.mkUser b nameB))
    (ids : ids_nonempty (collection db (chatsPath appId)))
    (fresh : autoId srv1 <> [])
    (chat_accepted : accepts srv1 = true)
    (message_accepted : accepts msg1 = true) :
  let userA := Auth.mkUser a nameA in
  let entryA := AppUser.mk a dirA photoA in
  let entryB := AppUser.mk b dirB photoB in
  (let r1 := AllUsers.handleCreateChat appId stA entryB true srv1 db in
   let r2 := AllUsers.handleCreateChat appId stB entryA true srv2 (res_db r1) in
   exists d,
     In d (records appId userA entryB (res_db r2))
     /\ pushed (res_effects r1) = [chat_url (Doc.id d)]
     /\ pushed (res_effects r2) = [chat_url (Doc.id d)]
     /\ List.length (records appId userA entryB (res_db r2))
        = Nat.max 1 (List.length (records appId userA entryB db)))
  /\
  (let r1 := AllUsers2.handleCreateChat appId stA2 entryB true srv1 msg1 db in
   let r2 := AllUsers2.handleCreateChat appId stB2 entryA true srv2 msg2 (res_db r1) in
   exists d,
     In d (records2 appId userA entryB (res_db r2))
     /\ pushed (res_effects r1) = [chat_url (Doc.id d)]
     /\ pushed (res_effects r2) = [chat_url (Doc.id d)]
     /\ List.length (records2 appId userA entryB (res_db r2))
        = Nat.max 1 (List.length (records2 appId userA entryB db))).
Proof.
  intros userA entryA entryB. subst userA entryA entryB.
  set (entryA := AppUser.mk a dirA photoA). set (entryB := AppUser.mk b dirB photoB).
  assert (Hswap : forall db0, records appId (Auth.mkUser b nameB) entryA db0 = records appId (Auth.mkUser a nameA) entryB db0)
    by (intros; apply records_swap).
  assert (Hswap2 : forall db0, records2 appId (Auth.mkUser b nameB) entryA db0 = records2 appId (Auth.mkUser a nameA) entryB db0)
    by (intros; apply records2_swap).
  split.
  - intros r1 r2. subst r1 r2.
    destruct (records appId (Auth.mkUser a nameA) entryB db) as [|x xs] eqn:Hrec.
    + destruct (handleCreateChat_created appId stA entryB HA srv1 db chat_accepted Hrec)
        as (d & Hid & Hrec1 & Heff1 & _).
      pose proof Hrec1 as HrecB. rewrite <- Hswap in HrecB.
      rewrite (handleCreateChat_found appId stB entryA HB srv2 _ HrecB).
      cbn [res_db res_effects]. rewrite Hrec1, Heff1. exists d. rewrite Hid.
      repeat split; simpl; auto.
    + rewrite (handleCreateChat_found appId stA entryB HA srv1 db Hrec).
      cbn [res_db res_effects].
      pose proof Hrec as HrecB. rewrite <- Hswap in HrecB.
      rewrite (handleCreateChat_found appId stB entryA HB srv2 db HrecB).
      cbn [res_db res_effects]. rewrite Hrec. exists x.
      repeat split; simpl; auto.
  - intros r1 r2. subst r1 r2.
    destruct (records2 appId (Auth.mkUser a nameA) entryB db) as [|x xs] eqn:Hrec.
    + destruct (handleCreateChat2_created appId stA2 entryB HA2 srv1 msg1 db
                  chat_accepted message_accepted Hrec)
        as (d & Hid & Hrec1 & Hcol1 & Heff1 & _).
      assert (Hlast :
        last (List.map (fun d => Some (Doc.id d))
                (records2 appId (Auth.mkUser b nameB) entryA
                   (res_db (AllUsers2.handleCreateChat appId stA2 entryB true srv1 msg1 db))))
             None = Some (autoId srv1)).
      { rewrite Hswap2, Hrec1. simpl. now rewrite Hid. }
      rewrite (@handleCreateChat2_opens_last appId stB2 (Auth.mkUser b nameB) entryA srv2 msg2 _ _
                 HB2 fresh Hlast).
      cbn [res_db res_effects]. rewrite Hrec1, Heff1. exists d. rewrite Hid.
      repeat split; simpl; auto.
    + assert (Hrec' : records2 appId (Auth.mkUser a nameA) entryB db = x :: xs) by exact Hrec.
      destruct (@last_record2_id appId (Auth.mkUser a nameA) entryB db x xs ids Hrec')
        as (d & Hin & Hne & Hlast).
      rewrite (@handleCreateChat2_opens_last appId stA2 (Auth.mkUser a nameA) entryB srv1 msg1 db _
                 HA2 Hne Hlast).
      cbn [res_db res_effects].
      assert (HlastB :
        last (List.map (fun d => Some (Doc.id d)) (records2 appId (Auth.mkUser b nameB) entryA db)) None
        = Some (Doc.id d)) by (rewrite Hswap2; exact Hlast).
      rewrite (@handleCreateChat2_opens_last appId stB2 (Auth.mkUser b nameB) entryA srv2 msg2 db _
                 HB2 Hne HlastB).
      cbn [res_db res_effects]. exists d.
      split; [exact Hin|]. rewrite Hrec. repeat split; simpl; auto.
Qed.

Definition inDirectoryU2 : AllUsers.State :=
  AllUsers.mkState (Some userU2) [entryU1] false.
Definition inDirectory2U2 : AllUsers2.State :=
  AllUsers2.mkState (Some userU2) [entryU1] false.

Lemma get_or_create_from_either_side_witness :
  (let r1 := AllUsers.handleCreateChat app inDirectoryU1 entryU2 true srvA db_empty in
   let r2 := AllUsers.handleCreateChat app inDirectoryU2 entryU1 true srvB (res_db r1) in
   exists d,
     In d (records app userU1 entryU2 (res_db r2))
     /\ pushed (res_effects r1) = [chat_url (Doc.id d)]
     /\ pushed (res_effects r2) = [chat_url (Doc.id d)]
     /\ List.length (records app userU1 entryU2 (res_db r2))
        = Nat.max 1 (List.length (records app userU1 entryU2 db_empty)))
  /\
  (let r1 := AllUsers2.handleCreateChat app inDirectory2U1 entryU2 true srvA srvC db_empty in
   let r2 := AllUsers2.handleCreateChat app inDirectory2U2 entryU1 true srvB srvD (res_db r1) in
   exists d,
     In d (records2 app userU1 entryU2 (res_db r2))
     /\ pushed (res_effects r1) = [chat_url (Doc.id d)]
     /\ pushed (res_effects r2) = [chat_url (Doc.id d)]
     /\ List.length (records2 app userU1 entryU2 (res_db r2))
        = Nat.max 1 (List.length (records2 app userU1 entryU2 db_empty))).
Proof.
  apply (@get_or_create_from_either_side app (js "U1") (js "U2")
           (Some (js "Una")) (Some (js "Dov")) (VString (js "Una")) (VString (js "Dov"))
           VNull VNull inDirectoryU1 inDirectoryU2 inDirectory2U1 inDirectory2U2
           srvA srvB srvC srvD db_empty).
  - reflexivity.
  - reflexivity.
  - reflexivity.
  - reflexivity.
  - constructor.
  - discriminate.
  - reflexivity.
  - reflexivity.
Defined.

Lemma value_eqb_string_array_eq (m : list JSString) (v : Value) :
  value_eqb v (string_array m) = true -> v = string_array m.
Proof.
  destruct v; simpl; try discriminate.
  unfold string_array. revert m.
  induction elems as [|e es IH]; intros [|s m]; simpl; try discriminate; auto.
  intros H. apply andb_true_iff in H as [He Hes].
  specialize (IH m Hes). injection IH as ->.
  destruct e; simpl in He; try discriminate.
  apply str_eqb_eq in He. now subst.
Qed.

(** A document whose [members] is the sorted pair passes the test of
    part_002. *)
Lemma is_chat_of_sorted_pair cu otherUser (d : QueryDocumentSnapshot) :
  field (js "members") (Doc.data d) = string_array (AllUsers.members cu otherUser) ->
  AllUsers2.is_chat_of cu otherUser d = true.
Proof.
  intros H. unfold AllUsers2.is_chat_of, AllUsers2.members_of. rewrite H.
  unfold AllUsers.members.
  destruct (sort_pair_cases (Auth.uid cu) (AppUser.uid otherUser)) as [-> | ->];
    cbn [string_array List.map List.length Nat.eqb existsb andb];
    rewrite !value_eqb_string; cbn [orb andb]; now rewrite ?orb_true_r.
Qed.

Lemma record_is_chat_of cu otherUser (d : QueryDocumentSnapshot) :
  value_eqb (field (js "members") (Doc.data d))
    (string_array (AllUsers.members cu otherUser)) = true ->
  AllUsers2.is_chat_of cu otherUser d = true.
Proof.
  intros H. apply is_chat_of_sorted_pair. now apply value_eqb_string_array_eq.
Qed.

Lemma filter_nil_implies {A : Type} (f g : A -> bool) (l : list A) :
  (forall x, f x = true -> g x = true) -> filter g l = [] -> filter f l = [].
Proof.
  intros Hfg. induction l as [|x l IH]; simpl; auto.
  destruct (g x) eqn:Eg; [discriminate|].
  destruct (f x) eqn:Ef; auto.
  apply Hfg in Ef. congruence.
Qed.

Lemma no_records2_no_records (appId : JSString) cu otherUser (db : Firestore) :
  records2 appId cu otherUser db = [] -> records appId cu otherUser db = [].
Proof.
  unfold records, records2. apply filter_nil_implies.
  intros d. apply record_is_chat_of.
Qed.

(** What all-users.tsx adds when its lookup finds nothing. *)
Lemma handleCreateChat_adds (appId : JSString) (st : AllUsers.State) cu otherUser
    (srv : Server) (db : Firestore) :
  AllUsers.currentUser st = Some cu ->
  accepts srv = true ->
  records appId cu otherUser db = [] ->
  exists d,
    Doc.id d = autoId srv
    /\ field (js "members") (Doc.data d) = string_array (AllUsers.members cu otherUser)
    /\ collection (res_db (AllUsers.handleCreateChat appId st otherUser true srv db))
         (chatsPath appId)
       = insert_at (position srv) d (collection db (chatsPath appId))
    /\ pushed (res_effects (AllUsers.handleCreateChat appId st otherUser true srv db))
       = [chat_url (autoId srv)].
Proof.
  intros signed_in Hok Hrec. unfold AllUsers.handleCreateChat.
  rewrite signed_in, getDocs_lookup, Hrec. cbn [firstn].
  unfold addDoc. rewrite Hok. cbn [res_db res_effects].
  eexists. split; [|split; [|split]].
  3: apply collection_set_same.
  all: reflexivity.
Qed.

(** X4.  The two revisions of the user directory share their conversations.
    On a store with no chat of the two participants, which answers the
    lookups and accepts the writes of the creating call, a conversation
    that one revision creates is the one the other revision opens
    afterwards, without adding anything: all-users.tsx stores the sorted
    pair, which the membership test of part_002 accepts, and part_002 stores
    the sorted pair too, which the equality lookup of all-users.tsx finds. *)
Theorem revisions_share_conversations
    (appId : JSString) (cu : Auth.User) (otherUser : AppUser.t)
    (st : AllUsers.State) (st2 : AllUsers2.State)
    (srv srv' msg msg' : Server) (db : Firestore)
    (signed_in : AllUsers.currentUser st = Some cu)
    (signed_in2 : AllUsers2.currentUser st2 = Some cu)
    (none : records2 appId cu otherUser db = [])
    (fresh : autoId srv <> [])
    (chat_accepted : accepts srv = true)
    (message_accepted : accepts msg = true) :
  (let r1 := AllUsers.handleCreateChat appId st otherUser true srv db in
   let r2 := AllUsers2.handleCreateChat appId st2 otherUser true srv' msg' (res_db r1) in
   pushed (res_effects r1) = [chat_url (autoId srv)]
   /\ pushed (res_effects r2) = [chat_url (autoId srv)]
   /\ res_db r2 = res_db r1)
  /\
  (let r1 := AllUsers2.handleCreateChat appId st2 otherUser true srv msg db in
   let r2 := AllUsers.handleCreateChat appId st otherUser true srv' (res_db r1) in
   pushed (res_effects r1) = [chat_url (autoId srv)]
   /\ pushed (res_effects r2) = [chat_url (autoId srv)]
   /\ res_db r2 = res_db r1).
Proof.
  split; intros r1 r2; subst r1 r2.
  - pose proof (@no_records2_no_records appId cu otherUser db none) as Hrec.
    destruct (@handleCreateChat_adds appId st cu otherUser srv db signed_in chat_accepted Hrec)
      as (d & Hid & Hmem & Hcol & Heff).
    assert (Hlast :
      last (List.map (fun d => Some (Doc.id d))
              (records2 appId cu otherUser
                 (res_db (AllUsers.handleCreateChat appId st otherUser true srv db))))
           None = Some (autoId srv)).
    { unfold records2. rewrite Hcol.
      match goal with
      | |- context [filter ?f ?l] =>
          assert (E : filter f l = [d])
            by (apply filter_insert_at_nil;
                [exact none | now apply is_chat_of_sorted_pair]);
          rewrite E
      end.
      simpl. now rewrite Hid. }
    rewrite (@handleCreateChat2_opens_last appId st2 cu otherUser srv' msg' _ _
               signed_in2 fresh Hlast).
    cbn [res_db res_effects]. rewrite Heff. repeat split.
  - destruct (handleCreateChat2_created appId st2 otherUser signed_in2 srv msg db
                chat_accepted message_accepted none)
      as (d & Hid & Hrec1 & Hcol & Heff & Hmem).
    assert (Hrec : records appId cu otherUser
                     (res_db (AllUsers2.handleCreateChat appId st2 otherUser true srv msg db))
                   = [d]).
    { unfold records. rewrite Hcol.
      apply filter_insert_at_nil.
      - apply (@no_records2_no_records appId cu otherUser db none).
      - rewrite Hmem. apply value_eqb_string_array. }
    rewrite (handleCreateChat_found appId st otherUser signed_in srv' _ Hrec).
    cbn [res_db res_effects]. rewrite Heff, Hid. repeat split.
Qed.

Lemma revisions_share_conversations_witness :
  (let r1 := AllUsers.handleCreateChat app inDirectoryU1 entryU2 true srvA db_empty in
   let r2 := AllUsers2.handleCreateChat app inDirectory2U1 entryU2 true srvB srvD (res_db r1) in
   pushed (res_effects r1) = [chat_url (autoId srvA)]
   /\ pushed (res_effects r2) = [chat_url (autoId srvA)]
   /\ res_db r2 = res_db r1)
  /\
  (let r1 := AllUsers2.handleCreateChat app inDirectory2U1 entryU2 true srvA srvC db_empty in
   let r2 := AllUsers.handleCreateChat app inDirectoryU1 entryU2 true srvB (res_db r1) in
   pushed (res_effects r1) = [chat_url (autoId srvA)]
   /\ pushed (res_effects r2) = [chat_url (autoId srvA)]
   /\ res_db r2 = res_db r1).
Proof.
  apply (@revisions_share_conversations app userU1 entryU2 inDirectoryU1 inDirectory2U1
           srvA srvB srvC srvD db_empty).
  - reflexivity.
  - reflexivity.
  - reflexivity.
  - discriminate.
  - reflexivity.
  - reflexivity.
Defined.


(** ** What the handlers leave alone *)

Lemma In_insert_at {A : Type} (n : nat) (x d : A) (l : list A) :
  In d l -> In d (insert_at n x l).
Proof.
  intros H. unfold insert_at. rewrite <- (firstn_skipn n l) in H.
  apply in_app_or in H. apply in_or_app. simpl. tauto.
Qed.

Lemma addDoc_rejected (srv : Server) (path : JSString) (fields : DocumentData)
    (db : Firestore) :
  accepts srv = false -> addDoc srv path fields db = None.
Proof. intros H. unfold addDoc. now rewrite H. Qed.

Lemma addDoc_accepted (srv : Server) (path : JSString) (fields : DocumentData)
    (db db' : Firestore) (i : JSString) :
  addDoc srv path fields db = Some (db', i) ->
  accepts srv = true
  /\ i = autoId srv
  /\ db' = set_collection path
             (insert_at (position srv) (stored srv fields) (collection db path)) db.
Proof.
  unfold addDoc. destruct (accepts srv); [|discriminate].
  intros H. injection H as <- <-. auto.
Qed.

Lemma addDoc_keeps (srv : Server) (path p : JSString) (fields : DocumentData)
    (db db' : Firestore) (i : JSString) (d : QueryDocumentSnapshot) :
  addDoc srv path fields db = Some (db', i) ->
  In d (collection db p) -> In d (collection db' p).
Proof.
  intros E H. apply addDoc_accepted in E as (_ & _ & ->).
  destruct (str_eqb path p) eqn:E.
  - apply str_eqb_eq in E. subst p. rewrite collection_set_same.
    now apply In_insert_at.
  - apply str_eqb_neq in E. now rewrite collection_set_other.
Qed.

Lemma addDoc_elsewhere (srv : Server) (path p : JSString) (fields : DocumentData)
    (db db' : Firestore) (i : JSString) :
  addDoc srv path fields db = Some (db', i) ->
  path <> p -> collection db' p = collection db p.
Proof.
  intros E H. apply addDoc_accepted in E as (_ & _ & ->).
  now apply collection_set_other.
Qed.

Lemma addDoc_length (srv : Server) (path : JSString) (fields : DocumentData)
    (db db' : Firestore) (i : JSString) :
  addDoc srv path fields db = Some (db', i) ->
  List.length (collection db' path) = S (List.length (collection db path)).
Proof.
  intros E. apply addDoc_accepted in E as (_ & _ & ->).
  now rewrite collection_set_same, length_insert_at.
Qed.

(** X5.  [handleCreateChat] only ever adds.  In both revisions every
    document of every collection is still there, unchanged, after the call;
    the chats collection grows by at most one document; and all-users.tsx
    touches no collection but the chats.  This holds whatever the store
    answers to the lookup and to the writes. *)
Theorem handleCreateChat_only_adds
    (appId : JSString) (st : AllUsers.State) (st2 : AllUsers2.State)
    (otherUser : AppUser.t) (answered : bool) (srv srvMsg : Server) (db : Firestore) :
  let r := AllUsers.handleCreateChat appId st otherUser answered srv db in
  let r2 := AllUsers2.handleCreateChat appId st2 otherUser answered srv srvMsg db in
  (forall p d, In d (collection db p) -> In d (collection (res_db r) p))
  /\ (forall p, p <> chatsPath appId -> collection (res_db r) p = collection db p)
  /\ List.length (collection (res_db r) (chatsPath appId))
     <= S (List.length (collection db (chatsPath appId)))
  /\ (forall p d, In d (collection db p) -> In d (collection (res_db r2) p))
  /\ List.length (collection (res_db r2) (chatsPath appId))
     <= S (List.length (collection db (chatsPath appId))).
Proof.
  intros r r2. subst r r2.
  split; [|split; [|split; [|split]]].
  - intros p d Hd. unfold AllUsers.handleCreateChat, AllUsers.caught.
    destruct (AllUsers.currentUser st) as [cu|]; auto.
    destruct (getDocs answered db (AllUsers.lookup appId cu otherUser)) as [[|? ?]|];
      auto.
    destruct (addDoc _ _ _ _) as [[db' newId]|] eqn:E; auto.
    cbn [res_db]. eapply addDoc_keeps; [exact E | exact Hd].
  - intros p Hp. unfold AllUsers.handleCreateChat, AllUsers.caught.
    destruct (AllUsers.currentUser st) as [cu|]; auto.
    destruct (getDocs answered db (AllUsers.lookup appId cu otherUser)) as [[|? ?]|];
      auto.
    destruct (addDoc _ _ _ _) as [[db' newId]|] eqn:E; auto.
    cbn [res_db]. eapply addDoc_elsewhere; [exact E | exact (not_eq_sym Hp)].
  - unfold AllUsers.handleCreateChat, AllUsers.caught.
    destruct (AllUsers.currentUser st) as [cu|]; auto.
    destruct (getDocs answered db (AllUsers.lookup appId cu otherUser)) as [[|? ?]|];
      auto.
    destruct (addDoc _ _ _ _) as [[db' newId]|] eqn:E; auto.
    cbn [res_db]. erewrite addDoc_length; [|exact E]. lia.
  - intros p d Hd. unfold AllUsers2.handleCreateChat, AllUsers2.caught.
    destruct (AllUsers2.currentUser st2) as [cu|]; auto.
    destruct (getDocs answered db (AllUsers2.lookup appId cu)) as [qs|]; auto.
    destruct (AllUsers2.nonempty_id _); auto.
    destruct (addDoc srv (chatsPath appId) _ db) as [[db1 newId]|] eqn:E1; auto.
    destruct (addDoc srvMsg (messagesPath appId newId) _ db1) as [[db2 x]|] eqn:E2;
      cbn [res_db].
    + eapply addDoc_keeps; [exact E2|]. eapply addDoc_keeps; [exact E1 | exact Hd].
    + eapply addDoc_keeps; [exact E1 | exact Hd].
  - unfold AllUsers2.handleCreateChat, AllUsers2.caught.
    destruct (AllUsers2.currentUser st2) as [cu|]; auto.
    destruct (getDocs answered db (AllUsers2.lookup appId cu)) as [qs|]; auto.
    destruct (AllUsers2.nonempty_id _); auto.
    destruct (addDoc srv (chatsPath appId) _ db) as [[db1 newId]|] eqn:E1; auto.
    destruct (addDoc srvMsg (messagesPath appId newId) _ db1) as [[db2 x]|] eqn:E2;
      cbn [res_db].
    + erewrite addDoc_elsewhere; [|exact E2|apply messagesPath_not_chatsPath].
      erewrite addDoc_length; [|exact E1]. lia.
    + erewrite addDoc_length; [|exact E1]. lia.
Qed.
(** ** What the lists hold *)

(** The directory entry made from a users document. *)
Definition entry_of (doc : QueryDocumentSnapshot) : AppUser.t :=
  AppUser.mk (Doc.id doc)
    (field (js "displayName") (Doc.data doc))
    (field (js "photoURL") (Doc.data doc)).

Definition is_other (user : Auth.User) (doc : QueryDocumentSnapshot) : bool :=
  negb (str_eqb (Doc.id doc) (Auth.uid user)).

Lemma visit2_fold (user : Auth.User) (qs : QuerySnapshot) (acc : list AppUser.t) :
  fold_left (AllUsers2.visit user) qs acc
  = acc ++ List.map entry_of (filter (is_other user) qs).
Proof.
  revert acc. induction qs as [|doc qs IH]; intros acc; simpl.
  - now rewrite app_nil_r.
  - rewrite IH. unfold AllUsers2.visit, is_other.
    destruct (negb (str_eqb (Doc.id doc) (Auth.uid user))); simpl; auto.
    now rewrite <- app_assoc.
Qed.

(** An entry for every other user's document. *)
Lemma deliver2_lists (appId : JSString) (user : Auth.User) (qs : QuerySnapshot)
    (c : AllUsers2.Component) (doc : QueryDocumentSnapshot) :
  In doc qs -> Doc.id doc <> Auth.uid user ->
  In (entry_of doc)
     (AllUsers2.users
        (AllUsers2.state
           (AllUsers2.deliver qs (fst (AllUsers2.authCallback appId (Some user) c))))).
Proof.
  intros Hin Hne. simpl. rewrite (visit2_fold user qs []). simpl.
  apply in_map, filter_In. split; auto.
  unfold is_other. apply str_eqb_neq in Hne. now rewrite Hne.
Qed.

(** X6.  The directory of part_002 lists exactly the other users: after
    sign-in, a users snapshot yields one entry per document whose id is not
    the signed-in user's uid, in the snapshot's order, carrying the
    document's id, [displayName] and [photoURL]; the loading indicator is
    off.  No other document is dropped. *)
Theorem directory2_lists_exactly_others
    (appId : JSString) (user : Auth.User) (qs : QuerySnapshot)
    (c : AllUsers2.Component) :
  let c2 := AllUsers2.deliver qs (fst (AllUsers2.authCallback appId (Some user) c)) in
  AllUsers2.users (AllUsers2.state c2) = List.map entry_of (filter (is_other user) qs)
  /\ (forall doc, In doc qs -> Doc.id doc <> Auth.uid user ->
                  In (entry_of doc) (AllUsers2.users (AllUsers2.state c2)))
  /\ AllUsers2.loading (AllUsers2.state c2) = false.
Proof.
  intros c2. subst c2. simpl.
  rewrite (visit2_fold user qs []). simpl.
  split; [reflexivity|]. split; [|reflexivity].
  intros doc Hin Hne. apply in_map, filter_In. split; auto.
  unfold is_other. apply str_eqb_neq in Hne. now rewrite Hne.
Qed.


(** ** The earlier conversation list of chatlist.tsx (no cache) *)
Module ChatListPlain.

Record State : Type := mkState {
  currentUser : option Auth.User;
  chats : list Chat.t;
  loading : bool
}.

Definition initialState : State :=
  {| currentUser := None; chats := []; loading := true |}.

Definition setCurrentUser (u : Auth.User) (st : State) : State :=
  {| currentUser := Some u; chats := chats st; loading := loading st |}.
Definition setChats (l : list Chat.t) (st : State) : State :=
  {| currentUser := currentUser st; chats := l; loading := loading st |}.
Definition setLoading (b : bool) (st : State) : State :=
  {| currentUser := currentUser st; chats := chats st; loading := b |}.

Definition onAuthStateChanged (user : option Auth.User) (st : State)
    : State * list Effect :=
  match user with
  | Some u => (setCurrentUser u st, [])
  | None => (st, [RouterReplace (js "/")])
  end.

(** The body of [querySnapshot.forEach]: every document is pushed. *)
Definition visit (chatList : list Chat.t) (docSnap : QueryDocumentSnapshot)
    : list Chat.t :=
  let data := Doc.data docSnap in
  chatList ++ [Chat.mk (Doc.id docSnap)
                 (or_else (field (js "chatName") data) (VString (js "Unnamed Chat")))
                 (or_else (field (js "lastMessageText") data) (VString empty))
                 (or_else (field (js "lastMessageTimestamp") data) VNull)].

Definition onChatsSnapshot (querySnapshot : QuerySnapshot) (st : State) : State :=
  setLoading false (setChats (fold_left visit querySnapshot []) st).

Definition onChatsError (st : State) : State * list Effect :=
  (setLoading false st, [ConsoleError (js "Error fetching chat list:")]).

Section WithApp.
Variable appId : JSString.

Definition subscribe (st : State) : State * list Effect :=
  match currentUser st with
  | None => (st, [])
  | Some cu =>
      (setLoading true st,
       [OnSnapshot
          (query (chatsPath appId)
             [Where (js "members") OpArrayContains (VString (Auth.uid cu));
              OrderBy (js "lastMessageTimestamp") Desc])])
  end.
End WithApp.
End ChatListPlain.

Definition plain_chat_of (d : QueryDocumentSnapshot) : Chat.t :=
  Chat.mk (Doc.id d)
    (or_else (field (js "chatName") (Doc.data d)) (VString (js "Unnamed Chat")))
    (or_else (field (js "lastMessageText") (Doc.data d)) (VString empty))
    (or_else (field (js "lastMessageTimestamp") (Doc.data d)) VNull).

Lemma plain_visit_fold (qs : QuerySnapshot) (acc : list Chat.t) :
  fold_left ChatListPlain.visit qs acc = acc ++ List.map plain_chat_of qs.
Proof.
  revert acc. induction qs as [|d qs IH]; intros acc; simpl.
  - now rewrite app_nil_r.
  - rewrite IH. unfold ChatListPlain.visit. now rewrite <- app_assoc.
Qed.

Definition dated_chat (c : Chat.t) : bool := truthy (Chat.lastMessageTimestamp c).

Lemma dated_plain_chat (d : QueryDocumentSnapshot) :
  dated_chat (plain_chat_of d) = has_timestamp d.
Proof.
  unfold dated_chat, has_timestamp, plain_chat_of, or_else.
  cbn [Chat.lastMessageTimestamp].
  destruct (truthy (field (js "lastMessageTimestamp") (Doc.data d))) eqn:E; auto.
Qed.

Lemma plain_chat_dated (d : QueryDocumentSnapshot) :
  has_timestamp d = true -> plain_chat_of d = chat_of d.
Proof.
  unfold has_timestamp, plain_chat_of, chat_of. intros H.
  f_equal. unfold or_else. now rewrite H.
Qed.

Lemma filter_dated_plain (qs : QuerySnapshot) :
  filter dated_chat (List.map plain_chat_of qs)
  = List.map chat_of (filter has_timestamp qs).
Proof.
  induction qs as [|d qs IH]; simpl; auto.
  rewrite dated_plain_chat.
  destruct (has_timestamp d) eqn:E; simpl; rewrite IH; auto.
  now rewrite plain_chat_dated.
Qed.

(** X7.  The two conversation lists of chatlist.tsx against each other.
    The earlier one lists every document of the snapshot, in order, giving
    [null] to a missing timestamp; the caching one lists exactly those
    entries of the earlier one that have a timestamp.  On a snapshot whose
    documents all have a timestamp the two expose the same list. *)
Theorem caching_list_is_plain_list_with_timestamps
    (cacheFails : bool) (qs : QuerySnapshot)
    (st : ChatList.State) (st0 : ChatListPlain.State) :
  let plain := ChatListPlain.chats (ChatListPlain.onChatsSnapshot qs st0) in
  let caching := ChatList.chats (fst (ChatList.onChatsSnapshot cacheFails qs st)) in
  List.map Chat.id plain = List.map Doc.id qs
  /\ caching = filter dated_chat plain
  /\ (forallb has_timestamp qs = true -> caching = plain).
Proof.
  intros plain caching. subst plain caching.
  rewrite onChatsSnapshot_chats. unfold ChatListPlain.onChatsSnapshot. simpl.
  rewrite (plain_visit_fold qs []). simpl.
  split; [|split].
  - rewrite map_map. reflexivity.
  - symmetry. apply filter_dated_plain.
  - intros Hall. rewrite <- filter_dated_plain.
    apply forallb_filter_id. rewrite forallb_forall in *.
    intros c Hc. apply in_map_iff in Hc as (d & <- & Hd).
    rewrite dated_plain_chat. exact (Hall d Hd).
Qed.

Definition dated_chats_snapshot : QuerySnapshot :=
  [chat_doc (js "c1") [js "U1"; js "U2"] (VTimestamp 10);
   chat_doc (js "c3") [js "U1"; js "U4"] (VTimestamp 7)].

Lemma caching_list_is_plain_list_with_timestamps_witness :
  ChatList.chats (fst (ChatList.onChatsSnapshot false dated_chats_snapshot
                         ChatList.initialState))
  = ChatListPlain.chats (ChatListPlain.onChatsSnapshot dated_chats_snapshot
                           ChatListPlain.initialState).
Proof.
  apply (@caching_list_is_plain_list_with_timestamps false dated_chats_snapshot
           ChatList.initialState ChatListPlain.initialState).
  reflexivity.
Defined.

Lemma NoDup_map_filter {A B : Type} (g : A -> B) (f : A -> bool) (l : list A) :
  NoDup (List.map g l) -> NoDup (List.map g (filter f l)).
Proof.
  induction l as [|x l IH]; simpl; auto.
  intros H. inversion H as [|? ? Hnotin Hnd]; subst.
  destruct (f x); simpl; auto.
  constructor; auto.
  intros Hin. apply Hnotin. apply in_map_iff in Hin as (y & Hy & Hin).
  apply filter_In in Hin as [Hin _]. rewrite <- Hy. now apply in_map.
Qed.

(** X8.  The keys handed to the three lists are distinct.  When the
    documents of a snapshot have distinct ids, the conversation list has
    distinct [id]s, the message list (when the listener call completes)
    has distinct [id]s, and the directory of part_002 has distinct [uid]s:
    what [keyExtractor] returns never repeats. *)
Theorem list_keys_are_distinct
    (toLocaleTimeString : Z -> JSString) (cu : Auth.User) (cacheFails : bool)
    (chatDocs messageDocs userDocs : QuerySnapshot)
    (st : ChatList.State) (ms ms' : ChatScreen.State) (out : list Effect)
    (us : AllUsers2.State)
    (Hchats : NoDup (List.map Doc.id chatDocs))
    (Hmessages : NoDup (List.map Doc.id messageDocs))
    (Husers : NoDup (List.map Doc.id userDocs))
    (Hdone : ChatScreen.onMessagesSnapshot toLocaleTimeString cu messageDocs ms
             = Some (ms', out)) :
  NoDup (List.map Chat.id
           (ChatList.chats (fst (ChatList.onChatsSnapshot cacheFails chatDocs st))))
  /\ NoDup (List.map Message.id (ChatScreen.messages ms'))
  /\ NoDup (List.map AppUser.uid
              (AllUsers2.users (AllUsers2.onUsersSnapshot cu userDocs us))).
Proof.
  split; [|split].
  - rewrite onChatsSnapshot_chats, map_map. cbn [chat_of Chat.id].
    now apply NoDup_map_filter.
  - rewrite (onMessagesSnapshot_ids toLocaleTimeString cu messageDocs ms Hdone).
    exact Hmessages.
  - unfold AllUsers2.onUsersSnapshot. simpl.
    rewrite (visit2_fold cu userDocs []). simpl. rewrite map_map.
    cbn [entry_of AppUser.uid]. now apply NoDup_map_filter.
Qed.

Lemma list_keys_are_distinct_witness :
  NoDup (List.map Chat.id
           (ChatList.chats (fst (ChatList.onChatsSnapshot false chats_snapshot
                                   ChatList.initialState))))
  /\ NoDup (List.map Message.id
              (ChatScreen.messages
                 (ChatScreen.setLoading false
                    (ChatScreen.setMessages
                       (match fold_left (ChatScreen.visit plainTime userU1) thread_S2 (Some [])
                        with Some l => l | None => [] end)
                       inThreadU1))))
  /\ NoDup (List.map AppUser.uid
              (AllUsers2.users
                 (AllUsers2.onUsersSnapshot userU1 users_snapshot AllUsers2.initialState))).
Proof.
  apply (@list_keys_are_distinct plainTime userU1 false chats_snapshot thread_S2
           users_snapshot ChatList.initialState inThreadU1 _ [ScrollToEnd]
           AllUsers2.initialState).
  - vm_compute. repeat constructor; simpl; intuition discriminate.
  - vm_compute. repeat constructor; simpl; intuition discriminate.
  - vm_compute. repeat constructor; simpl; intuition discriminate.
  - reflexivity.
Defined.

(** X9.  Every conversation the caching list exposes has a name and a
    timestamp to show: [chatName] is truthy (a missing or empty name has
    become "Unnamed Chat") and [lastMessageTimestamp] is truthy. *)
Theorem listed_chats_have_name_and_time
    (cacheFails : bool) (qs : QuerySnapshot) (st : ChatList.State) (c : Chat.t) :
  In c (ChatList.chats (fst (ChatList.onChatsSnapshot cacheFails qs st))) ->
  truthy (Chat.chatName c) = true /\ truthy (Chat.lastMessageTimestamp c) = true.
Proof.
  rewrite onChatsSnapshot_chats. intros Hc.
  apply in_map_iff in Hc as (d & <- & Hd). apply filter_In in Hd as [_ Hts].
  split; [|exact Hts].
  cbn [chat_of Chat.chatName]. unfold or_else.
  destruct (truthy (field (js "chatName") (Doc.data d))) eqn:E; auto.
Qed.

Lemma listed_chats_have_name_and_time_witness :
  truthy (Chat.chatName (chat_of (chat_doc (js "c1") [js "U1"; js "U2"] (VTimestamp 10))))
  = true
  /\ truthy (Chat.lastMessageTimestamp
               (chat_of (chat_doc (js "c1") [js "U1"; js "U2"] (VTimestamp 10))))
     = true.
Proof.
  apply (@listed_chats_have_name_and_time false chats_snapshot ChatList.initialState).
  left. reflexivity.
Defined.


(** ** What [sendMessage] stores *)

Lemma trim_start_split (s : JSString) :
  exists p, blank p /\ s = p ++ trim_start s.
Proof.
  induction s as [|c s (p & Hp & IH)]; simpl.
  - exists []. split; [constructor | reflexivity].
  - destruct (is_white_space c) eqn:E.
    + exists (c :: p). split; [constructor; auto | simpl; now f_equal].
    + exists []. split; [constructor | reflexivity].
Qed.

(** [trim] takes white space off both ends and nothing else. *)
Lemma trim_split (s : JSString) :
  exists p q, blank p /\ blank q /\ s = p ++ trim s ++ q.
Proof.
  destruct (trim_start_split s) as (p & Hp & Hs).
  destruct (trim_start_split (rev (trim_start s))) as (q & Hq & Hr).
  exists p, (rev q). split; [exact Hp|]. split; [now apply blank_rev|].
  unfold trim. rewrite <- rev_app_distr, <- Hr, rev_involutive. exact Hs.
Qed.

Lemma trim_ends (s : JSString) (c : N) (t : JSString) :
  trim s = c :: t ->
  is_white_space c = false /\ is_white_space (last (c :: t) c) = false.
Proof.
  intros H. unfold trim in H.
  destruct (trim_start (rev (trim_start s))) as [|h u] eqn:Eu; [discriminate|].
  pose proof (trim_start_head _ Eu) as Hh.
  split.
  - destruct (trim_start_split (rev (trim_start s))) as (q & Hq & Hr).
    rewrite Eu in Hr. apply (f_equal (@rev N)) in Hr.
    rewrite rev_involutive, rev_app_distr, H in Hr.
    simpl in Hr. exact (@trim_start_head s c (t ++ rev q) Hr).
  - rewrite <- H. simpl. rewrite last_last. exact Hh.
Qed.

Lemma or_default_nonempty (x : option JSString) (d : JSString) :
  d <> [] -> or_default x d <> [].
Proof.
  intros Hd. destruct x as [[|c s]|]; simpl; auto. discriminate.
Qed.

Section Sending.
Variable appId : JSString.
Variable toLocaleTimeString : Z -> JSString.
Variables (st : ChatScreen.State) (cu : Auth.User) (srv : Server) (db : Firestore).
Hypothesis signed_in : ChatScreen.currentUser st = Some cu.
Hypothesis Hbody : ~ blank (ChatScreen.input st).

(** An accepted write puts the outgoing document, with the server's time,
    into the room. *)
Lemma sendMessage_accepted :
  accepts srv = true ->
  res_db (ChatScreen.sendMessage appId toLocaleTimeString st srv db)
  = set_collection (messagesPath appId ChatScreen.room)
      (insert_at (position srv) (stored srv (ChatScreen.outgoing st cu))
         (collection db (messagesPath appId ChatScreen.room))) db
  /\ ChatScreen.input
       (res_state (ChatScreen.sendMessage appId toLocaleTimeString st srv db))
     = empty.
Proof.
  intros Hok. unfold ChatScreen.sendMessage. rewrite signed_in.
  destruct (trim (ChatScreen.input st)) as [|c s] eqn:E.
  - apply trim_nil in E. contradiction.
  - unfold addDoc. rewrite Hok. split; reflexivity.
Qed.

(** A rejected write leaves the store and the input box alone, and is
    logged. *)
Lemma sendMessage_rejected :
  accepts srv = false ->
  res_db (ChatScreen.sendMessage appId toLocaleTimeString st srv db) = db
  /\ ChatScreen.input
       (res_state (ChatScreen.sendMessage appId toLocaleTimeString st srv db))
     = ChatScreen.input st
  /\ In (ConsoleError (js "Error sending message: "))
        (res_effects (ChatScreen.sendMessage appId toLocaleTimeString st srv db)).
Proof.
  intros Hno. unfold ChatScreen.sendMessage, ChatScreen.whilePending.
  rewrite signed_in.
  destruct (trim (ChatScreen.input st)) as [|c s] eqn:E.
  - apply trim_nil in E. contradiction.
  - unfold addDoc. rewrite Hno. cbn [res_db res_state res_effects].
    split; [reflexivity|]. split.
    + now rewrite !step_input.
    + apply in_or_app. right. left. reflexivity.
Qed.
End Sending.

(** X10.  The document of a sent message.  With a user signed in and a body
    that is not blank: when the store accepts the write, [sendMessage] adds
    exactly one document to the messages of [general_chat] and touches no
    other collection; its [text] is the input with the white space at both
    ends removed (and nothing else): it is not empty and neither starts nor
    ends with white space; [userId] is the sender's uid, [userName] is never
    empty ("Guest" stands in for a missing or empty display name),
    [timestamp] is the server's time; and the input box is cleared.  When
    the store rejects the write, nothing is stored, the input box keeps its
    text, the error is logged and the promise is fulfilled all the same. *)
Theorem sent_document
    (appId : JSString) (toLocaleTimeString : Z -> JSString)
    (st : ChatScreen.State) (cu : Auth.User)
    (srv : Server) (db : Firestore)
    (signed_in : ChatScreen.currentUser st = Some cu)
    (Hbody : ~ blank (ChatScreen.input st)) :
  let r := ChatScreen.sendMessage appId toLocaleTimeString st srv db in
  let path := messagesPath appId ChatScreen.room in
  (accepts srv = true ->
   exists (body name : JSString) (c : N) (rest before after : JSString),
     collection (res_db r) path
     = insert_at (position srv)
         (Doc.mk (autoId srv)
            [(js "text", VString body); (js "userId", VString (Auth.uid cu));
             (js "userName", VString name); (js "timestamp", VTimestamp (now srv))])
         (collection db path)
     /\ (forall p, p <> path -> collection (res_db r) p = collection db p)
     /\ body = c :: rest
     /\ is_white_space c = false
     /\ is_white_space (last body c) = false
     /\ ChatScreen.input st = before ++ body ++ after
     /\ blank before /\ blank after
     /\ name <> []
     /\ ChatScreen.input (res_state r) = empty)
  /\ (accepts srv = false ->
      res_db r = db
      /\ ChatScreen.input (res_state r) = ChatScreen.input st
      /\ In (ConsoleError (js "Error sending message: ")) (res_effects r)
      /\ res_promise r = Fulfilled).
Proof.
  intros r path. subst r path. split.
  - intros Hok.
    destruct (@sendMessage_accepted appId toLocaleTimeString st cu srv db
                signed_in Hbody Hok) as [Hdb Hinput].
    rewrite Hdb, Hinput.
    destruct (trim_split (ChatScreen.input st)) as (before & after & Hb & Ha & Hsplit).
    destruct (trim (ChatScreen.input st)) as [|c rest] eqn:E.
    + apply trim_nil in E. contradiction.
    + destruct (@trim_ends (ChatScreen.input st) c rest E) as [Hc Hl].
      exists (c :: rest), (or_default (Auth.displayName cu) (js "Guest")), c, rest,
        before, after.
      split.
      { rewrite collection_set_same. unfold ChatScreen.outgoing, stored.
        rewrite E. reflexivity. }
      split; [intros p Hp; apply collection_set_other; congruence|].
      repeat split; auto.
      apply or_default_nonempty. discriminate.
  - intros Hno.
    destruct (@sendMessage_rejected appId toLocaleTimeString st cu srv db
                signed_in Hbody Hno) as (Hdb & Hinput & Hlog).
    repeat split; auto. apply sendMessage_fulfilled.
Qed.

Lemma sent_document_witness :
  let st := composing (js " hi ") in
  let r := ChatScreen.sendMessage app plainTime st srvA db_empty in
  let path := messagesPath app ChatScreen.room in
  exists (body name : JSString) (c : N) (rest before after : JSString),
    collection (res_db r) path
    = insert_at (position srvA)
        (Doc.mk (autoId srvA)
           [(js "text", VString body); (js "userId", VString (Auth.uid userU1));
            (js "userName", VString name); (js "timestamp", VTimestamp (now srvA))])
        (collection db_empty path)
    /\ (forall p, p <> path -> collection (res_db r) p = collection db_empty p)
    /\ body = c :: rest
    /\ is_white_space c = false
    /\ is_white_space (last body c) = false
    /\ ChatScreen.input st = before ++ body ++ after
    /\ blank before /\ blank after
    /\ name <> []
    /\ ChatScreen.input (res_state r) = empty.
Proof.
  apply (@sent_document app plainTime (composing (js " hi ")) userU1 srvA db_empty).
  - reflexivity.
  - intros H. inversion H as [|? ? _ H']. inversion H' as [|? ? Hc _].
    vm_compute in Hc. discriminate.
  - reflexivity.
Defined.

Example sent_text_is_trimmed :
  List.map (fun d => field (js "text") (Doc.data d))
    (collection
       (res_db (ChatScreen.sendMessage app plainTime (composing (js " hi ")) srvA
                  db_empty))
       (messagesPath app ChatScreen.room))
  = [VString (js "hi")].
Proof. reflexivity. Qed.

(** A rejected write: the room is as before, " hi " is still in the input
    box, and the error was logged. *)
Example rejected_message_is_kept_in_the_box :
  let r := ChatScreen.sendMessage app plainTime (composing (js " hi ")) srvNo db_empty in
  collection (res_db r) (messagesPath app ChatScreen.room) = []
  /\ ChatScreen.input (res_state r) = js " hi "
  /\ ChatScreen.messages (res_state r) = []
  /\ res_effects r
     = [ScrollToEnd; ScrollToEnd; ConsoleError (js "Error sending message: ")].
Proof. vm_compute. repeat split. Qed.

(** X11.  The send button and the guard of [sendMessage] agree: the button
    is disabled exactly when the input is blank; a disabled button's
    handler would change nothing; and with the button enabled, a user
    signed in and the write accepted by the store, the call adds one
    message document. *)
Theorem send_button_matches_guard
    (appId : JSString) (toLocaleTimeString : Z -> JSString)
    (st : ChatScreen.State) (srv : Server) (db : Firestore) :
  let r := ChatScreen.sendMessage appId toLocaleTimeString st srv db in
  let path := messagesPath appId ChatScreen.room in
  (ChatScreen.sendDisabled st = true <-> blank (ChatScreen.input st))
  /\ (ChatScreen.sendDisabled st = true -> r = mkResult db st [] Fulfilled)
  /\ (ChatScreen.sendDisabled st = false ->
      ChatScreen.currentUser st <> None ->
      accepts srv = true ->
      List.length (collection (res_db r) path) = S (List.length (collection db path))).
Proof.
  intros r path. subst r path.
  unfold ChatScreen.sendDisabled, ChatScreen.sendMessage.
  destruct (trim (ChatScreen.input st)) as [|c rest] eqn:E.
  - split; [|split]; auto; try discriminate.
    split; auto. intros _. now apply trim_nil.
  - split; [|split]; try discriminate.
    + split; [discriminate|]. intros H. apply trim_nil in H. congruence.
    + intros _ Hcu Hok. destruct (ChatScreen.currentUser st) as [cu|]; [|congruence].
      unfold addDoc. rewrite Hok. cbn [res_db].
      now rewrite collection_set_same, length_insert_at.
Qed.

Lemma send_button_matches_guard_witness :
  List.length
    (collection
       (res_db (ChatScreen.sendMessage app plainTime (composing (js "hi")) srvA db_empty))
       (messagesPath app ChatScreen.room))
  = S (List.length (collection db_empty (messagesPath app ChatScreen.room))).
Proof.
  apply (@send_button_matches_guard app plainTime (composing (js "hi")) srvA db_empty).
  - reflexivity.
  - discriminate.
  - reflexivity.
Defined.

(** ** From the store back to the screen *)

(** X12.  A sent message comes back as one's own.  Take a non-blank body
    sent by a signed-in user, a store that accepts the write, and a room
    whose earlier documents each carry a Timestamp, [null] or nothing in
    [timestamp].  Handing a messages listener of that user, whatever it
    showed before, the messages of [general_chat] as the store holds them
    after [sendMessage] yields a list with one entry more than there were
    documents, among them the sent message: its id is the new document's
    id, its text the trimmed input, its sender ['me'], its timestamp the
    server's time. *)
Theorem sent_message_comes_back
    (appId : JSString) (toLocaleTimeString : Z -> JSString)
    (st st' : ChatScreen.State) (cu : Auth.User) (srv : Server) (db : Firestore)
    (signed_in : ChatScreen.currentUser st = Some cu)
    (Hbody : ~ blank (ChatScreen.input st))
    (Haccepted : accepts srv = true)
    (Hdated : dated (collection db (messagesPath appId ChatScreen.room))) :
  let r := ChatScreen.sendMessage appId toLocaleTimeString st srv db in
  let path := messagesPath appId ChatScreen.room in
  exists shown out m,
    ChatScreen.onMessagesSnapshot toLocaleTimeString cu
      (collection (res_db r) path) st' = Some (shown, out)
    /\ List.length (ChatScreen.messages shown) = S (List.length (collection db path))
    /\ In m (ChatScreen.messages shown)
    /\ Message.id m = autoId srv
    /\ Message.text m = VString (trim (ChatScreen.input st))
    /\ Message.sender m = Message.me
    /\ Message.userId m = VString (Auth.uid cu)
    /\ Message.timestamp m = Some (now srv)
    /\ Message.time m = toLocaleTimeString (now srv).
Proof.
  intros r path. subst r path.
  destruct (@sendMessage_accepted appId toLocaleTimeString st cu srv db
              signed_in Hbody Haccepted) as [Hdb _].
  rewrite Hdb, collection_set_same.
  destruct (outgoing_is_mine toLocaleTimeString st cu srv) as [_ Hmine].
  rewrite onMessagesSnapshot_shown.
  2:{ apply dated_insert_at; [|exact Hdated].
      rewrite stored_outgoing_date. discriminate. }
  eexists. eexists.
  exists (shown_as toLocaleTimeString cu (stored srv (ChatScreen.outgoing st cu))).
  split; [reflexivity|].
  cbn [ChatScreen.setLoading ChatScreen.setMessages ChatScreen.messages].
  split; [now rewrite length_map, length_insert_at|].
  split; [apply in_map, In_insert_at_new|].
  split; [reflexivity|]. split; [reflexivity|]. split; [exact Hmine|].
  repeat split.
Qed.

Lemma sent_message_comes_back_witness :
  let st := composing (js " hi ") in
  let r := ChatScreen.sendMessage app plainTime st srvA db_empty in
  let path := messagesPath app ChatScreen.room in
  exists shown out m,
    ChatScreen.onMessagesSnapshot plainTime userU1
      (collection (res_db r) path) inThreadU1 = Some (shown, out)
    /\ List.length (ChatScreen.messages shown) = S (List.length (collection db_empty path))
    /\ In m (ChatScreen.messages shown)
    /\ Message.id m = autoId srvA
    /\ Message.text m = VString (trim (ChatScreen.input st))
    /\ Message.sender m = Message.me
    /\ Message.userId m = VString (Auth.uid userU1)
    /\ Message.timestamp m = Some (now srvA)
    /\ Message.time m = plainTime (now srvA).
Proof.
  apply (@sent_message_comes_back app plainTime (composing (js " hi ")) inThreadU1
           userU1 srvA db_empty).
  - reflexivity.
  - intros H. inversion H as [|? ? _ H']. inversion H' as [|? ? Hc _].
    vm_compute in Hc. discriminate.
  - reflexivity.
  - constructor.
Defined.

(** X13.  The first message of a conversation is not attributed to its
    author.  When part_002 creates a conversation (its lookup answered and
    finding none, both writes accepted), the "Chat started" document it
    writes records its author under [senderId]; the messages listener reads
    [userId] and [userName].  So the entry the listener builds from that
    document has sender ['other'] for every reader, the author included,
    and no user name. *)
Theorem first_message_is_nobodys
    (appId : JSString) (toLocaleTimeString : Z -> JSString)
    (st : AllUsers2.State) (cu reader : Auth.User) (otherUser : AppUser.t)
    (srv srvMsg : Server) (db : Firestore) (acc : list Message.t)
    (signed_in : AllUsers2.currentUser st = Some cu)
    (none : records2 appId cu otherUser db = [])
    (chat_accepted : accepts srv = true)
    (message_accepted : accepts srvMsg = true) :
  let r := AllUsers2.handleCreateChat appId st otherUser true srv srvMsg db in
  exists d m,
    In d (collection (res_db r) (messagesPath appId (autoId srv)))
    /\ Doc.id d = autoId srvMsg
    /\ field (js "text") (Doc.data d) = VString (js "Chat started")
    /\ field (js "senderId") (Doc.data d) = VString (Auth.uid cu)
    /\ ChatScreen.visit toLocaleTimeString reader (Some acc) d = Some (acc ++ [m])
    /\ Message.sender m = Message.other
    /\ Message.userId m = VUndefined
    /\ Message.userName m = VUndefined
    /\ Message.timestamp m = Some (now srvMsg).
Proof.
  intros r. subst r.
  pose proof (existing_getDocs appId cu otherUser db) as Hex.
  unfold AllUsers2.handleCreateChat. rewrite signed_in.
  destruct (getDocs true db (AllUsers2.lookup appId cu)) as [qs|]; [|discriminate].
  simpl in Hex. injection Hex as Hex. rewrite Hex, none.
  cbn [List.map last AllUsers2.nonempty_id].
  unfold addDoc. rewrite chat_accepted, message_accepted. cbn [res_db].
  eexists. eexists.
  split; [rewrite collection_set_same; apply In_insert_at_new|].
  repeat split.
Qed.

Lemma first_message_is_nobodys_witness :
  let r :=
    AllUsers2.handleCreateChat app inDirectory2U1 entryU2 true srvA srvC db_empty in
  exists d m,
    In d (collection (res_db r) (messagesPath app (autoId srvA)))
    /\ Doc.id d = autoId srvC
    /\ field (js "text") (Doc.data d) = VString (js "Chat started")
    /\ field (js "senderId") (Doc.data d) = VString (Auth.uid userU1)
    /\ ChatScreen.visit plainTime userU1 (Some []) d = Some ([] ++ [m])
    /\ Message.sender m = Message.other
    /\ Message.userId m = VUndefined
    /\ Message.userName m = VUndefined
    /\ Message.timestamp m = Some (now srvC).
Proof.
  apply (@first_message_is_nobodys app plainTime inDirectory2U1 userU1 userU1 entryU2
           srvA srvC db_empty []).
  - reflexivity.
  - reflexivity.
  - reflexivity.
  - reflexivity.
Defined.

(** ** src/unnamed/part_000: the sign-up page *)

(** [setDoc(doc(db, path, id), fields)]: the document with that id is
    replaced where it stands, or added (at the place the server lists it). *)
Definition setDoc (n : nat) (path i : JSString) (fields : DocumentData)
    (db : Firestore) : Firestore :=
  let docs := collection db path in
  set_collection path
    (if existsb (fun d => str_eqb (Doc.id d) i) docs
     then List.map (fun d => if str_eqb (Doc.id d) i then Doc.mk i fields else d) docs
     else insert_at n (Doc.mk i fields) docs)
    db.

(** How an awaited call of the auth or store SDK ends: with a value, or
    by throwing an error whose [message] may be missing. *)
Inductive Attempt (A : Type) : Type :=
| Succeeds (a : A)
| Throws (message : option JSString).
Arguments Succeeds {A}.
Arguments Throws {A}.

(** [userCredential.user], the part the page reads. *)
Module Credential.
Record User : Type := mkUser {
  uid : JSString;
  email : option JSString     (* string | null *)
}.
End Credential.

(** [x] for [x : string | null] as a field value. *)
Definition nullable (x : option JSString) : Value :=
  match x with Some s => VString s | None => VNull end.

Module SignupPage.

Record State : Type := mkState {
  name : JSString;
  email : JSString;
  password : JSString;
  loading : bool;
  error : JSString
}.

Definition setLoading (b : bool) (st : State) : State :=
  {| name := name st; email := email st; password := password st;
     loading := b; error := error st |}.
Definition setError (e : JSString) (st : State) : State :=
  {| name := name st; email := email st; password := password st;
     loading := loading st; error := e |}.

(** What the three awaited calls of [handleSignup] do, and where the
    server lists a new users document. *)
Record Outcomes : Type := mkOutcomes {
  created : Attempt Credential.User;   (* createUserWithEmailAndPassword *)
  profile : Attempt unit;              (* updateProfile *)
  saved : Attempt unit;                (* setDoc *)
  place : nat
}.

Section WithApp.
Variable appId : JSString.

(** The [catch] and [finally] blocks, entered from state [st] with store
    [db]. *)
Definition failed (message : option JSString) (st : State) (db : Firestore)
    : Result State :=
  mkResult db
    (setLoading false (setError (or_default message (js "Failed to sign up.")) st))
    [] Fulfilled.

Definition handleSignup (st : State) (o : Outcomes) (db : Firestore) : Result State :=
  let st1 := setLoading true (setError empty st) in
  match created o with
  | Throws m => failed m st1 db
  | Succeeds user =>
      match profile o with
      | Throws m => failed m st1 db
      | Succeeds _ =>
          match saved o with
          | Throws m => failed m st1 db
          | Succeeds _ =>
              mkResult
                (setDoc (place o) (usersPath appId) (Credential.uid user)
                   [(js "displayName", VString (name st));
                    (js "uid", VString (Credential.uid user));
                    (js "email", nullable (Credential.email user))] db)
                (setLoading false st1)
                [RouterReplace (js "/chatlist")] Fulfilled
          end
      end
  end.
End WithApp.
End SignupPage.

(** The three awaited calls all succeed. *)
Definition all_succeed (o : SignupPage.Outcomes) : bool :=
  match SignupPage.created o, SignupPage.profile o, SignupPage.saved o with
  | Succeeds _, Succeeds _, Succeeds _ => true
  | _, _, _ => false
  end.

(** X14.  How a sign-up ends.  The loading indicator is always off
    afterwards.  When the three awaited calls succeed, the error text is
    empty (whatever it was before) and the page moves to [/chatlist].  When
    any of them throws, also after the account itself was created, the
    error text shown is not empty (a missing or empty message becomes
    "Failed to sign up."), the page stays, and no users document is
    written. *)
Theorem signup_outcome
    (appId : JSString) (st : SignupPage.State) (o : SignupPage.Outcomes)
    (db : Firestore) :
  let r := SignupPage.handleSignup appId st o db in
  SignupPage.loading (res_state r) = false
  /\ (all_succeed o = true ->
      SignupPage.error (res_state r) = empty
      /\ res_effects r = [RouterReplace (js "/chatlist")])
  /\ (all_succeed o = false ->
      SignupPage.error (res_state r) <> empty
      /\ res_effects r = []
      /\ res_db r = db).
Proof.
  intros r. subst r. unfold SignupPage.handleSignup, all_succeed, SignupPage.failed.
  assert (Hdef : forall m, or_default m (js "Failed to sign up.") <> empty)
    by (intros m; apply or_default_nonempty; discriminate).
  destruct (SignupPage.created o) as [user|m1];
    [destruct (SignupPage.profile o) as [?|m2];
     [destruct (SignupPage.saved o) as [?|m3]|]|];
    cbn [res_state res_effects res_db SignupPage.loading SignupPage.error
         SignupPage.setLoading SignupPage.setError];
    repeat split; auto; try discriminate; intros; try discriminate; auto;
    repeat split; auto.
Qed.

Lemma signup_outcome_witness :
  let st := SignupPage.mkState (js "Una") (js "una@example.org") (js "pw") false
              (js "old error") in
  let o := SignupPage.mkOutcomes
             (Succeeds (Credential.mkUser (js "U1") (Some (js "una@example.org"))))
             (Throws None) (Succeeds tt) 0 in
  let r := SignupPage.handleSignup app st o db_empty in
  SignupPage.error (res_state r) <> empty /\ res_effects r = [] /\ res_db r = db_empty.
Proof.
  apply (@signup_outcome app
           (SignupPage.mkState (js "Una") (js "una@example.org") (js "pw") false
              (js "old error"))
           (SignupPage.mkOutcomes
              (Succeeds (Credential.mkUser (js "U1") (Some (js "una@example.org"))))
              (Throws None) (Succeeds tt) 0)
           db_empty).
  reflexivity.
Defined.

Lemma setDoc_In (n : nat) (path i : JSString) (fields : DocumentData) (db : Firestore) :
  In (Doc.mk i fields) (collection (setDoc n path i fields db) path).
Proof.
  unfold setDoc. rewrite collection_set_same.
  destruct (existsb (fun d => str_eqb (Doc.id d) i) (collection db path)) eqn:E.
  - apply existsb_exists in E as (x & Hx & Hid).
    apply in_map_iff. exists x. now rewrite Hid.
  - apply In_insert_at_new.
Qed.

(** X15.  A user who has signed up can be found.  After a sign-up whose
    three calls succeeded, the users collection holds the new user's
    document, and the directory of part_002, shown to any other signed-in
    user and handed that collection, lists the new user under the uid of the
    account and the name typed on the sign-up page. *)
Theorem signed_up_user_is_listed
    (appId : JSString) (st : SignupPage.State) (o : SignupPage.Outcomes)
    (db : Firestore) (user : Credential.User) (viewer : Auth.User)
    (c : AllUsers2.Component)
    (Hcreated : SignupPage.created o = Succeeds user)
    (Hprofile : SignupPage.profile o = Succeeds tt)
    (Hsaved : SignupPage.saved o = Succeeds tt)
    (Hviewer : Credential.uid user <> Auth.uid viewer) :
  let r := SignupPage.handleSignup appId st o db in
  let directory :=
    AllUsers2.deliver (collection (res_db r) (usersPath appId))
      (fst (AllUsers2.authCallback appId (Some viewer) c)) in
  In (AppUser.mk (Credential.uid user) (VString (SignupPage.name st)) VUndefined)
     (AllUsers2.users (AllUsers2.state directory)).
Proof.
  intros r directory. subst r directory.
  unfold SignupPage.handleSignup. rewrite Hcreated, Hprofile, Hsaved. cbn [res_db].
  match goal with
  | |- context [setDoc ?n ?p ?i ?f ?b] => pose proof (setDoc_In n p i f b) as Hdoc
  end.
  exact (@deliver2_lists appId viewer _ c _ Hdoc Hviewer).
Qed.

Lemma signed_up_user_is_listed_witness :
  let st := SignupPage.mkState (js "Dov") (js "dov@example.org") (js "pw") false empty in
  let o := SignupPage.mkOutcomes
             (Succeeds (Credential.mkUser (js "U2") (Some (js "dov@example.org"))))
             (Succeeds tt) (Succeeds tt) 0 in
  let r := SignupPage.handleSignup app st o db_empty in
  let directory :=
    AllUsers2.deliver (collection (res_db r) (usersPath app))
      (fst (AllUsers2.authCallback app (Some userU1) AllUsers2.mount)) in
  In (AppUser.mk (js "U2") (VString (js "Dov")) VUndefined)
     (AllUsers2.users (AllUsers2.state directory)).
Proof.
  apply (@signed_up_user_is_listed app
           (SignupPage.mkState (js "Dov") (js "dov@example.org") (js "pw") false empty)
           (SignupPage.mkOutcomes
              (Succeeds (Credential.mkUser (js "U2") (Some (js "dov@example.org"))))
              (Succeeds tt) (Succeeds tt) 0)
           db_empty (Credential.mkUser (js "U2") (Some (js "dov@example.org")))
           userU1 AllUsers2.mount).
  - reflexivity.
  - reflexivity.
  - reflexivity.
  - discriminate.
Defined.


(** ** Any run of listener calls *)

(** The documents of the last snapshot of a run, if it has one. *)
Fixpoint last_snapshot (events : list ChatList.Event) : option QuerySnapshot :=
  match events with
  | [] => None
  | e :: rest =>
      match last_snapshot rest with
      | Some qs => Some qs
      | None => match e with
                | ChatList.Snapshot _ qs => Some qs
                | ChatList.SnapshotError => None
                end
      end
  end.

(** The list most recently handed to [AsyncStorage.setItem]. *)
Fixpoint last_cached (out : list Effect) : option (list Chat.t) :=
  match out with
  | [] => None
  | e :: rest =>
      match last_cached rest with
      | Some l => Some l
      | None => match e with SetItem _ l => Some l | _ => None end
      end
  end.

Lemma last_snapshot_app (es : list ChatList.Event) (e : ChatList.Event) :
  last_snapshot (es ++ [e])
  = match e with
    | ChatList.Snapshot _ qs => Some qs
    | ChatList.SnapshotError => last_snapshot es
    end.
Proof.
  induction es as [|x es IH]; simpl.
  - destruct e; reflexivity.
  - rewrite IH. destruct e; auto.
Qed.

Lemma last_cached_app (out1 out2 : list Effect) :
  last_cached (out1 ++ out2)
  = match last_cached out2 with
    | Some l => Some l
    | None => last_cached out1
    end.
Proof.
  induction out1 as [|e out1 IH]; simpl.
  - now destruct (last_cached out2).
  - rewrite IH. now destruct (last_cached out2).
Qed.

Lemma last_cached_warnings (ws : list Effect) :
  Forall is_warning ws -> last_cached ws = None.
Proof.
  induction 1 as [|e ws He _ IH]; simpl; auto.
  rewrite IH. destruct e; simpl in He; tauto.
Qed.

(** X17.  After any run of listener calls on the caching conversation
    list, snapshots and errors in any order, the exposed list is the one
    built from the most recent snapshot (or the list the run started with
    when no snapshot came), and the list most recently handed to the cache
    is that same list: screen and cache do not drift apart. *)
Theorem run_shows_and_caches_last_snapshot
    (events : list ChatList.Event) (st : ChatList.State) :
  let r := ChatList.run events st in
  match last_snapshot events with
  | Some qs =>
      ChatList.chats (fst r) = List.map chat_of (filter has_timestamp qs)
      /\ last_cached (snd r) = Some (ChatList.chats (fst r))
  | None =>
      ChatList.chats (fst r) = ChatList.chats st /\ last_cached (snd r) = None
  end.
Proof.
  induction events as [|e events IH] using rev_ind; simpl.
  - auto.
  - rewrite chatlist_run_app, last_snapshot_app. cbn [fold_left].
    destruct e as [cacheFails qs|].
    + unfold ChatList.step.
      destruct (onChatsSnapshot_effects cacheFails qs (fst (ChatList.run events st)))
        as (warnings & Hw & Heff).
      pose proof (onChatsSnapshot_chats cacheFails qs (fst (ChatList.run events st)))
        as Hchats.
      destruct (ChatList.onChatsSnapshot cacheFails qs (fst (ChatList.run events st)))
        as [st' out].
      cbn [fst snd] in *. subst out. split; [exact Hchats|].
      rewrite Hchats, !last_cached_app.
      destruct cacheFails; simpl; reflexivity.
    + simpl in IH. cbn [ChatList.step ChatList.onChatsError fst snd].
      rewrite last_cached_app. simpl.
      destruct (last_snapshot events); exact IH.
Qed.

(** ** A snapshot the thread cannot read *)

(** X18.  A message snapshot with a document whose [timestamp] is neither
    absent, [null] nor a Timestamp (a string, say) makes the listener throw
    at [toDate()], before [setMessages]: the message list, the loading
    indicator and everything else stay as they were, whatever else the
    snapshot holds. *)
Theorem unreadable_snapshot_changes_nothing
    (toLocaleTimeString : Z -> JSString) (cu : Auth.User)
    (qs : QuerySnapshot) (doc : QueryDocumentSnapshot)
    (c : ChatScreen.State * list Effect)
    (Hin : In doc qs)
    (Hts : ChatScreen.toDate (field (js "timestamp") (Doc.data doc)) = None) :
  ChatScreen.onMessagesSnapshot toLocaleTimeString cu qs (fst c) = None
  /\ ChatScreen.step toLocaleTimeString cu c (ChatScreen.Snapshot qs) = c.
Proof.
  assert (H : ChatScreen.onMessagesSnapshot toLocaleTimeString cu qs (fst c) = None).
  { unfold ChatScreen.onMessagesSnapshot.
    now rewrite (@visit_throws toLocaleTimeString cu qs (Some []) doc Hin Hts). }
  split; [exact H|]. unfold ChatScreen.step. now rewrite H.
Qed.

Lemma unreadable_snapshot_changes_nothing_witness :
  ChatScreen.onMessagesSnapshot plainTime userU1 thread_unreadable inThreadU1 = None
  /\ ChatScreen.step plainTime userU1 (inThreadU1, []) (ChatScreen.Snapshot thread_unreadable)
     = (inThreadU1, []).
Proof.
  apply (@unreadable_snapshot_changes_nothing plainTime userU1 thread_unreadable
           (message_doc (js "m9") (js "??") (js "U2") (VString (js "yesterday")))
           (inThreadU1, [])).
  - right. left. reflexivity.
  - reflexivity.
Defined.


(** ** Which record is opened when there are several *)

Lemma last_default {A : Type} (y : A) (ys : list A) (a b : A) :
  last (y :: ys) a = last (y :: ys) b.
Proof.
  revert y. induction ys as [|z zs IH]; intros y; [reflexivity|].
  exact (IH z).
Qed.

Lemma last_map_some {A : Type} (f : A -> JSString) (x : A) (xs : list A) :
  last (List.map (fun d => Some (f d)) (x :: xs)) None = Some (f (last (x :: xs) x)).
Proof.
  revert x. induction xs as [|y ys IH]; intros x; [reflexivity|].
  change (last (List.map (fun d => Some (f d)) (y :: ys)) None
          = Some (f (last (y :: ys) x))).
  now rewrite IH, (last_default y ys x y).
Qed.

(** X19.  With several records of a pair in the store (a race can leave
    them) and the lookup answered, all-users.tsx opens the first one the
    store lists, and part_002 the last one its loop accepts; neither writes
    anything (document ids being non-empty). *)
Theorem first_or_last_record_is_opened
    (appId : JSString) (cu : Auth.User) (otherUser : AppUser.t)
    (st : AllUsers.State) (st2 : AllUsers2.State)
    (srv srvMsg : Server) (db : Firestore)
    (x y : QueryDocumentSnapshot) (xs ys : list QueryDocumentSnapshot)
    (signed_in : AllUsers.currentUser st = Some cu)
    (signed_in2 : AllUsers2.currentUser st2 = Some cu)
    (ids : ids_nonempty (collection db (chatsPath appId)))
    (Hrec : records appId cu otherUser db = x :: xs)
    (Hrec2 : records2 appId cu otherUser db = y :: ys) :
  let r := AllUsers.handleCreateChat appId st otherUser true srv db in
  let r2 := AllUsers2.handleCreateChat appId st2 otherUser true srv srvMsg db in
  pushed (res_effects r) = [chat_url (Doc.id x)]
  /\ pushed (res_effects r2) = [chat_url (Doc.id (last (y :: ys) y))]
  /\ res_db r = db /\ res_db r2 = db.
Proof.
  intros r r2. subst r r2.
  rewrite (handleCreateChat_found appId st otherUser signed_in srv db Hrec).
  assert (Hlast :
    last (List.map (fun d => Some (Doc.id d)) (records2 appId cu otherUser db)) None
    = Some (Doc.id (last (y :: ys) y))).
  { rewrite Hrec2. apply last_map_some. }
  assert (Hne : Doc.id (last (y :: ys) y) <> []).
  { unfold ids_nonempty in ids. rewrite Forall_forall in ids. apply ids.
    assert (Hin : In (last (y :: ys) y) (records2 appId cu otherUser db)).
    { rewrite Hrec2.
      destruct (exists_last (l := y :: ys)) as (l' & a & E); [discriminate|].
      rewrite E, last_last. apply in_or_app. right. now left. }
    unfold records2 in Hin. apply filter_In in Hin. tauto. }
  rewrite (@handleCreateChat2_opens_last appId st2 cu otherUser srv srvMsg db _
             signed_in2 Hne Hlast).
  repeat split.
Qed.

Lemma first_or_last_record_is_opened_witness :
  let r := AllUsers.handleCreateChat app inDirectoryU1 entryU2 true srvA db_duplicates in
  let r2 := AllUsers2.handleCreateChat app inDirectory2U1 entryU2 true srvA srvC
              db_duplicates in
  pushed (res_effects r)
  = [chat_url (Doc.id (chat_doc (js "c1") [js "U1"; js "U2"] (VTimestamp 10)))]
  /\ pushed (res_effects r2)
     = [chat_url
          (Doc.id (last [chat_doc (js "c1") [js "U1"; js "U2"] (VTimestamp 10);
                         chat_doc (js "c2") [js "U1"; js "U2"] (VTimestamp 11)]
                        (chat_doc (js "c1") [js "U1"; js "U2"] (VTimestamp 10))))]
  /\ res_db r = db_duplicates /\ res_db r2 = db_duplicates.
Proof.
  apply (@first_or_last_record_is_opened app userU1 entryU2 inDirectoryU1 inDirectory2U1
           srvA srvC db_duplicates
           (chat_doc (js "c1") [js "U1"; js "U2"] (VTimestamp 10))
           (chat_doc (js "c1") [js "U1"; js "U2"] (VTimestamp 10))
           [chat_doc (js "c2") [js "U1"; js "U2"] (VTimestamp 11)]
           [chat_doc (js "c2") [js "U1"; js "U2"] (VTimestamp 11)]).
  - reflexivity.
  - reflexivity.
  - repeat constructor; discriminate.
  - reflexivity.
  - reflexivity.
Defined.


(** ** When the store fails [handleCreateChat] *)

(** X20.  A lookup that the store does not answer.  In both revisions
    [handleCreateChat], called by a signed-in user, then writes nothing,
    opens nothing, logs 'Error creating chat:' and fulfils its promise: the
    tap on the user has no visible effect. *)
Theorem unanswered_lookup_is_only_logged
    (appId : JSString) (cu : Auth.User) (otherUser : AppUser.t)
    (st : AllUsers.State) (st2 : AllUsers2.State)
    (srv srvMsg : Server) (db : Firestore)
    (signed_in : AllUsers.currentUser st = Some cu)
    (signed_in2 : AllUsers2.currentUser st2 = Some cu) :
  AllUsers.handleCreateChat appId st otherUser false srv db
  = mkResult db st [ConsoleError (js "Error creating chat:")] Fulfilled
  /\ AllUsers2.handleCreateChat appId st2 otherUser false srv srvMsg db
     = mkResult db st2 [ConsoleError (js "Error creating chat:")] Fulfilled.
Proof.
  unfold AllUsers.handleCreateChat, AllUsers2.handleCreateChat.
  rewrite signed_in, signed_in2, !getDocs_unanswered. split; reflexivity.
Qed.

Lemma unanswered_lookup_is_only_logged_witness :
  AllUsers.handleCreateChat app inDirectoryU1 entryU2 false srvA db_duplicates
  = mkResult db_duplicates inDirectoryU1
      [ConsoleError (js "Error creating chat:")] Fulfilled
  /\ AllUsers2.handleCreateChat app inDirectory2U1 entryU2 false srvA srvC db_duplicates
     = mkResult db_duplicates inDirectory2U1
         [ConsoleError (js "Error creating chat:")] Fulfilled.
Proof.
  apply (@unanswered_lookup_is_only_logged app userU1 entryU2 inDirectoryU1
           inDirectory2U1 srvA srvC db_duplicates).
  - reflexivity.
  - reflexivity.
Defined.

(** X21.  A conversation without its first message.  In part_002, when the
    lookup is answered and finds no chat of the pair, the chat document is
    accepted and the "Chat started" message is rejected: the chat stays in
    the store, its messages are as before (none were added), the error is
    logged and the user is not taken anywhere.  Asking again opens that
    chat and writes nothing, so the first message is never added. *)
Theorem chat_without_first_message
    (appId : JSString) (cu : Auth.User) (otherUser : AppUser.t)
    (st2 : AllUsers2.State) (srv srvMsg srv' srvMsg' : Server) (db : Firestore)
    (signed_in2 : AllUsers2.currentUser st2 = Some cu)
    (none : records2 appId cu otherUser db = [])
    (fresh : autoId srv <> [])
    (chat_accepted : accepts srv = true)
    (message_rejected : accepts srvMsg = false) :
  let r := AllUsers2.handleCreateChat appId st2 otherUser true srv srvMsg db in
  let again :=
    AllUsers2.handleCreateChat appId st2 otherUser true srv' srvMsg' (res_db r) in
  pushed (res_effects r) = []
  /\ In (ConsoleError (js "Error creating chat:")) (res_effects r)
  /\ (exists d, records2 appId cu otherUser (res_db r) = [d] /\ Doc.id d = autoId srv)
  /\ collection (res_db r) (messagesPath appId (autoId srv))
     = collection db (messagesPath appId (autoId srv))
  /\ pushed (res_effects again) = [chat_url (autoId srv)]
  /\ res_db again = res_db r.
Proof.
  intros r again.
  assert (Hr : r = mkResult
                     (set_collection (chatsPath appId)
                        (insert_at (position srv)
                           (stored srv
                              [(js "members",
                                string_array (AllUsers2.members cu otherUser));
                               (js "chatName",
                                VString
                                  (or_default (Auth.displayName cu) (js "You")
                                   ++ js " & "
                                   ++ toStr (or_else (AppUser.displayName otherUser)
                                                     (VString (js "User")))));
                               (js "lastMessageText", VString empty);
                               (js "lastMessageTimestamp", VServerTimestamp)])
                           (collection db (chatsPath appId))) db)
                     st2
                     [ConsoleLog (js "Creating new chat with members:");
                      ConsoleError (js "Error creating chat:")] Fulfilled).
  { subst r. pose proof (existing_getDocs appId cu otherUser db) as Hex.
    unfold AllUsers2.handleCreateChat. rewrite signed_in2.
    destruct (getDocs true db (AllUsers2.lookup appId cu)) as [qs|]; [|discriminate].
    simpl in Hex. injection Hex as Hex. rewrite Hex, none.
    cbn [List.map last AllUsers2.nonempty_id].
    unfold addDoc. rewrite chat_accepted, message_rejected. reflexivity. }
  assert (Hrec : exists d, records2 appId cu otherUser (res_db r) = [d]
                           /\ Doc.id d = autoId srv).
  { rewrite Hr. cbn [res_db]. eexists. split.
    - unfold records2. rewrite collection_set_same.
      apply filter_insert_at_nil; [exact none | apply new_chat_is_chat_of].
    - reflexivity. }
  split; [rewrite Hr; reflexivity|].
  split; [rewrite Hr; right; left; reflexivity|].
  split; [exact Hrec|].
  split.
  { rewrite Hr. cbn [res_db]. apply collection_set_other.
    apply not_eq_sym, messagesPath_not_chatsPath. }
  destruct Hrec as (d & Hd & Hid).
  assert (Hlast :
    last (List.map (fun d => Some (Doc.id d)) (records2 appId cu otherUser (res_db r)))
      None = Some (autoId srv)).
  { rewrite Hd. simpl. now rewrite Hid. }
  subst again.
  rewrite (@handleCreateChat2_opens_last appId st2 cu otherUser srv' srvMsg' _ _
             signed_in2 fresh Hlast).
  split; reflexivity.
Qed.

Lemma chat_without_first_message_witness :
  let r := AllUsers2.handleCreateChat app inDirectory2U1 entryU2 true srvA srvNo db_empty in
  let again :=
    AllUsers2.handleCreateChat app inDirectory2U1 entryU2 true srvB srvD (res_db r) in
  pushed (res_effects r) = []
  /\ In (ConsoleError (js "Error creating chat:")) (res_effects r)
  /\ (exists d, records2 app userU1 entryU2 (res_db r) = [d] /\ Doc.id d = autoId srvA)
  /\ collection (res_db r) (messagesPath app (autoId srvA))
     = collection db_empty (messagesPath app (autoId srvA))
  /\ pushed (res_effects again) = [chat_url (autoId srvA)]
  /\ res_db again = res_db r.
Proof.
  apply (@chat_without_first_message app userU1 entryU2 inDirectory2U1
           srvA srvNo srvB srvD db_empty).
  - reflexivity.
  - reflexivity.
  - discriminate.
  - reflexivity.
  - reflexivity.
Defined.
